(** * ArduinoTempLogger: thermistor conversion and logging session

    A shallow embedding of [Firmware/TemperatureLogger/TemperatureLogger.ino]
    (and of the second firmware variant where it differs), with the
    properties of the conversion from ADC counts to degrees Celsius, of the
    record formatting and of the start/stop logging controller.

    Numbers are modelled as the AVR target of the sketch has them
    ([pgm_read_float], the Adafruit data logger shield): [float] and
    [double] are both IEEE-754 binary32, taken from the standard library's
    executable specification [SpecFloat], and [int] is a 16-bit integer. *)

From Stdlib Require Import ZArith List Bool String Ascii Lia.
From Stdlib Require Import Floats.SpecFloat DecimalString.
From Stdlib Require Import DecimalPos DecimalN.
Import ListNotations.

Local Open Scope Z_scope.

(** ** IEEE-754 binary32 arithmetic *)

Module F32.

Definition prec : Z := 24.
Definition emax : Z := 128.

Definition float : Type := spec_float.

(** Conversion of a C integer (and of a decimal literal with an integral
    value) to the nearest float. *)
Definition of_int (z : Z) : float := binary_normalize prec emax z 0 false.

Definition add : float -> float -> float := SFadd prec emax.
Definition sub : float -> float -> float := SFsub prec emax.
Definition mul : float -> float -> float := SFmul prec emax.
Definition div : float -> float -> float := SFdiv prec emax.
Definition ltb : float -> float -> bool := SFltb.
Definition eqb : float -> float -> bool := SFeqb.

Definition valid (x : float) : bool := valid_binary prec emax x.

Definition is_zero (x : float) : bool :=
  match x with S754_zero _ => true | _ => false end.

Definition is_nan (x : float) : bool :=
  match x with S754_nan => true | _ => false end.


(** A finite or infinite number that is not zero: what a zero may be
    divided by. *)
Definition nonzero_number (x : float) : bool :=
  match x with
  | S754_finite _ _ _ | S754_infinity _ => true
  | _ => false
  end.

(** The same number in the same representation. *)
Definition same (x y : float) : bool :=
  match x, y with
  | S754_zero a, S754_zero b => Bool.eqb a b
  | S754_infinity a, S754_infinity b => Bool.eqb a b
  | S754_nan, S754_nan => true
  | S754_finite a m e, S754_finite b n f =>
      Bool.eqb a b && Pos.eqb m n && Z.eqb e f
  | _, _ => false
  end.

(** The exponent of the format for a number of the given magnitude. *)
Definition fexp32 (z : Z) : Z := fexp prec emax z.

End F32.

Declare Scope f32_scope.
Delimit Scope f32_scope with f32.
Bind Scope f32_scope with F32.float.
Infix "+" := F32.add : f32_scope.
Infix "-" := F32.sub : f32_scope.
Infix "*" := F32.mul : f32_scope.
Infix "/" := F32.div : f32_scope.
Infix "<?" := F32.ltb : f32_scope.

(** ** Constants of the sketch *)

(** [#define START 2]: the pin of the start/stop button. *)
Definition START : Z := 2.
(** [#define LED 3] *)
Definition LED : Z := 3.
(** [#define LINE_LEN 80] *)
Definition LINE_LEN : nat := 80.
(** [#define LOG_INTERVAL 5000] *)
Definition LOG_INTERVAL : Z := 5000.

(** Locals of [readThermistorValue]. *)
Definition TEMP_OFFSET : Z := -80.
Definition END : Z := 380.

(** Locals of [readResistorOhms]. *)
Definition VIN : F32.float := F32.of_int 5.
Definition R2 : F32.float := F32.of_int 10000.

(** ** The converter *)

Section Converter.

(** The calibration table [TempToOhms] of [Thermistor-103J-G1J.h], read
    from flash; the converter is verified for any table. *)
Variable TempToOhms : list F32.float.

(** [analogRead]: the raw count of each analog channel. *)
Variable analogRead : Z -> Z.

(** [pgm_read_float(&TempToOhms[i])] *)
Definition pgm_read_float (i : Z) : F32.float :=
  nth (Z.to_nat i) TempToOhms S754_nan.

(** [float map(float x, float in_min, float in_max, float out_min,
    float out_max)] *)
Definition map (x in_min in_max out_min out_max : F32.float) : F32.float :=
  let result :=
    ((x - in_min) * (out_max - out_min) / (in_max - in_min) + out_min)%f32 in
  result.

(** The voltage across the thermistor, [reading / 1024.0 * VIN]. *)
Definition Vtherm_of (reading : Z) : F32.float :=
  (F32.of_int reading / F32.of_int 1024 * VIN)%f32.

(** The body of [readResistorOhms] once the channel has been read. *)
Definition ohms_of_reading (reading : Z) : F32.float :=
  let Vtherm := Vtherm_of reading in
  let resistance := (R2 / (VIN / Vtherm - F32.of_int 1))%f32 in
  resistance.

(** [double readResistorOhms(int channel)] *)
Definition readResistorOhms (channel : Z) : F32.float :=
  let reading := analogRead channel in
  ohms_of_reading reading.

(** The divisors of the three divisions [readResistorOhms] evaluates, in
    evaluation order. *)
Definition readResistorOhms_divisors (reading : Z) : list F32.float :=
  [ F32.of_int 1024;
    Vtherm_of reading;
    (VIN / Vtherm_of reading - F32.of_int 1)%f32 ].

(** The [for] loop of [readThermistorValue]: [count] is the number of
    iterations left, [END - i]; running out of iterations leaves [temp]
    at its initial value [-9999.0]. *)
Fixpoint scan (count : nat) (i : Z) (r : F32.float) : F32.float :=
  match count with
  | O => F32.of_int (-9999)
  | S count' =>
      let currentTemp := pgm_read_float i in
      if (currentTemp <? r)%f32 then
        let lastTemp := pgm_read_float (i - 1) in
        (map r lastTemp currentTemp
             (F32.of_int i - F32.of_int 1) (F32.of_int i)
         + F32.of_int TEMP_OFFSET)%f32
      else scan count' (i + 1) r
  end.

(** The body of [readThermistorValue] after the resistance [r] has been
    read. *)
Definition resistanceToTemperature (r : F32.float) : F32.float :=
  scan (Z.to_nat (END - (START + 1))) (START + 1) r.

(** [double readThermistorValue(int channel)] *)
Definition readThermistorValue (channel : Z) : F32.float :=
  let r := readResistorOhms channel in
  resistanceToTemperature r.

End Converter.

(** ** Formatted output *)

Local Open Scope string_scope.

(** The digits of [|n|] in base ten. *)
Definition decimal (n : Z) : string :=
  NilZero.string_of_uint (N.to_uint (Z.abs_N n)).

Fixpoint fill (c : ascii) (k : nat) (s : string) : string :=
  match k with
  | O => s
  | S k' => String c (fill c k' s)
  end.

(** One [%d] conversion with an optional [0] flag and a minimum field
    width: the sign comes first, zeros go between sign and digits, blanks
    go before the sign. *)
Definition format_d (zero_flag : bool) (width : nat) (n : Z) : string :=
  let sign := if (n <? 0)%Z then "-" else "" in
  let body := decimal n in
  let k := (width - (String.length sign + String.length body))%nat in
  if zero_flag then sign ++ fill "0"%char k body
  else fill " "%char k (sign ++ body).

Definition digit_value (c : ascii) : option nat :=
  let n := nat_of_ascii c in
  if ((48 <=? n) && (n <=? 57))%nat then Some (n - 48)%nat else None.

(** Where the scanner of a format string stands: in plain text, or inside
    a conversion specification whose flag and width have been read. *)
Inductive fmt_state : Type :=
| in_text
| in_spec (zero_flag : bool) (width : nat) (flags_done : bool).

(** [sprintf] for the format strings of the sketch: plain text and [%d]
    conversions with the [0] flag and a decimal width. *)
Fixpoint format (st : fmt_state) (fmt : string) (args : list Z) : string :=
  match fmt with
  | EmptyString => EmptyString
  | String c rest =>
      match st with
      | in_text =>
          if Ascii.eqb c "%" then format (in_spec false 0 false) rest args
          else String c (format in_text rest args)
      | in_spec zero_flag width flags_done =>
          if Ascii.eqb c "d" then
            match args with
            | a :: args' => format_d zero_flag width a ++ format in_text rest args'
            | [] => format in_text rest []
            end
          else if Ascii.eqb c "0" && negb flags_done then
            format (in_spec true width false) rest args
          else
            match digit_value c with
            | Some d => format (in_spec zero_flag (10 * width + d) true) rest args
            | None => String c (format in_text rest args)
            end
      end
  end.

(** [snprintf(buffer, size, fmt, ...)]: at most [size - 1] characters are
    stored. *)
Definition snprintf (size : nat) (fmt : string) (args : list Z) : string :=
  substring 0 (size - 1) (format in_text fmt args).

(** ** The logging session controller *)

(** The fields of RTClib's [DateTime] the sketch reads. *)
Record DateTime : Type := mkDateTime {
  month : Z;
  day : Z;
  hour : Z;
  minute : Z;
  second : Z
}.

(** A handle of the SD library: [File()] is the handle that tests false,
    which is also what a failed [SD.open] returns. *)
Inductive File : Type :=
| no_file
| file (name : string).

(** The globals of the sketch. *)
Record State : Type := mkState {
  _triggered : bool;
  _logging : bool;
  _myFile : File
}.

(** What one cycle reads from its surroundings. *)
Record World : Type := mkWorld {
  analogRead : Z -> Z;
  rtc_now : DateTime;
  SD_open_result : string -> File
}.

(** Calls to the peripherals, in the order they are made. *)
Inductive Event : Type :=
| Serial_print (s : string)
| Serial_println (s : string)
| SD_open (name : string) (result : File)
| File_println (f : File) (line : string)
| File_close (f : File)
| digitalWrite (pin : Z) (high : bool)
| delay (ms : Z).

(** Computations over the globals that record their peripheral calls. *)
Definition M (A : Type) : Type := State -> A * State * list Event.

Definition ret {A : Type} (a : A) : M A := fun s => (a, s, []).

Definition bind {A B : Type} (c : M A) (k : A -> M B) : M B :=
  fun s =>
    let '(a, s1, t1) := c s in
    let '(b, s2, t2) := k a s1 in
    (b, s2, (t1 ++ t2)%list).

Declare Scope M_scope.
Delimit Scope M_scope with M.
Notation "x <- c ;; k" := (bind c (fun x => k))
  (at level 61, c at next level, right associativity) : M_scope.
Notation "c ;; k" := (bind c (fun _ => k))
  (at level 61, right associativity) : M_scope.
Local Open Scope M_scope.

Definition emit (e : Event) : M unit := fun s => (tt, s, [e]).
Definition get {A : Type} (field : State -> A) : M A := fun s => (field s, s, []).
Definition set_triggered (b : bool) : M unit :=
  fun s => (tt, mkState b (_logging s) (_myFile s), []).
Definition set_logging (b : bool) : M unit :=
  fun s => (tt, mkState (_triggered s) b (_myFile s), []).
Definition set_myFile (f : File) : M unit :=
  fun s => (tt, mkState (_triggered s) (_logging s) f, []).

Definition state_of {A : Type} (r : A * State * list Event) : State := snd (fst r).
Definition trace_of {A : Type} (r : A * State * list Event) : list Event := snd r.

Definition HIGH : bool := true.
Definition LOW : bool := false.

(** The analog pins, as the ATmega328 boards number them. *)
Definition A0 : Z := 14.
Definition A1 : Z := 15.
Definition A2 : Z := 16.

Section Controller.

Variable TempToOhms : list F32.float.

(** The conversion of a [float] argument to the [int] parameter of
    [logData]; C defines it only for values in range, so the controller
    is verified for any conversion. *)
Variable float_to_int : F32.float -> Z.

Variable w : World.

(** The text of one record, the main firmware's [snprintf] in [logData]. *)
Definition record_line (timeNow : DateTime) (v1 v2 v3 : Z) : string :=
  snprintf LINE_LEN "%02d:%02d:%02d,%d.%d,%d.%d,%d.%d"
    [ hour timeNow; minute timeNow; second timeNow;
      Z.quot v1 100; Z.abs (Z.rem v1 100);
      Z.quot v2 100; Z.abs (Z.rem v2 100);
      Z.quot v3 100; Z.abs (Z.rem v3 100) ].

(** [void logData(int v1, int v2, int v3)] *)
Definition logData (v1 v2 v3 : Z) : M unit :=
  let timeNow := rtc_now w in
  let buffer := record_line timeNow v1 v2 v3 in
  logging <- get _logging ;;
  (if logging then
     f <- get _myFile ;;
     emit (File_println f buffer) ;;
     emit (digitalWrite LED LOW) ;;
     emit (delay 100) ;;
     emit (digitalWrite LED HIGH)
   else ret tt) ;;
  emit (Serial_println buffer).

(** The text of one record in the second firmware variant, whose
    [snprintf] pads the integer part to three columns and appends the
    unit. *)
Definition record_line_variant (timeNow : DateTime) (v1 v2 v3 : Z) : string :=
  snprintf LINE_LEN "%02d:%02d:%02d,%3d.%dC,%3d.%dC,%3d.%dC"
    [ hour timeNow; minute timeNow; second timeNow;
      Z.quot v1 100; Z.abs (Z.rem v1 100);
      Z.quot v2 100; Z.abs (Z.rem v2 100);
      Z.quot v3 100; Z.abs (Z.rem v3 100) ].

(** [void logData(int v1, int v2, int v3)] of the second firmware variant,
    which leaves the LED to [loop]. *)
Definition logData_variant (v1 v2 v3 : Z) : M unit :=
  let timeNow := rtc_now w in
  let buffer := record_line_variant timeNow v1 v2 v3 in
  logging <- get _logging ;;
  (if logging then
     f <- get _myFile ;;
     emit (File_println f buffer)
   else ret tt) ;;
  emit (Serial_println buffer).

(** The name of the log file, [ddTHHMM.csv]. *)
Definition log_name (now : DateTime) : string :=
  snprintf LINE_LEN "%02dT%02d%02d.csv" [ day now; hour now; minute now ].

(** [void startLog()] *)
Definition startLog : M unit :=
  let now := rtc_now w in
  let buffer := log_name now in
  emit (Serial_print "Recording started: ") ;;
  emit (Serial_println buffer) ;;
  let opened := SD_open_result w buffer in
  emit (SD_open buffer opened) ;;
  set_myFile opened.

(** [void stopLog()]; closing leaves the handle of the SD library
    invalid. *)
Definition stopLog : M unit :=
  f <- get _myFile ;;
  emit (File_close f) ;;
  set_myFile no_file ;;
  emit (Serial_println "Recording stopped").

(** [void logIsr()], the handler of the rising edge of the button. *)
Definition logIsr : M unit :=
  set_triggered true ;;
  logging <- get _logging ;;
  if negb logging then
    emit (digitalWrite LED LOW) ;;
    emit (delay 100)
  else ret tt.

(** [void loop()] *)
Definition loop : M unit :=
  triggered <- get _triggered ;;
  (if triggered then
     set_triggered false ;;
     logging <- get _logging ;;
     if logging then
       set_logging false ;;
       stopLog
     else
       set_logging true ;;
       startLog
   else ret tt) ;;
  let t1 := readThermistorValue TempToOhms (analogRead w) A0 in
  emit (delay 50) ;;
  let t2 := readThermistorValue TempToOhms (analogRead w) A1 in
  emit (delay 50) ;;
  let t3 := readThermistorValue TempToOhms (analogRead w) A2 in
  emit (digitalWrite LED LOW) ;;
  emit (delay 100) ;;
  emit (digitalWrite LED HIGH) ;;
  emit (delay 200) ;;
  logData (float_to_int (t1 * F32.of_int 100)%f32)
          (float_to_int (t2 * F32.of_int 100)%f32)
          (float_to_int (t3 * F32.of_int 100)%f32) ;;
  emit (delay (LOG_INTERVAL - 200)).

End Controller.

(** [n] presses of the button between two cycles: the handler runs once
    per rising edge. *)
Fixpoint presses (n : nat) : M unit :=
  match n with
  | O => ret tt
  | S n' => logIsr ;; presses n'
  end.

(** ** Auxiliary definitions of the statements *)

(** The integers [lo, lo + 1, ..., lo + n - 1]. *)
Definition Zrange (lo : Z) (n : nat) : list Z :=
  List.map (fun k => lo + Z.of_nat k)%Z (seq 0 n).

(** The index at which the loop of [readThermistorValue] breaks, if it
    does: the loop of [scan] without the arithmetic. *)
Fixpoint scan_index (TempToOhms : list F32.float) (count : nat) (i : Z)
    (r : F32.float) : option Z :=
  match count with
  | O => None
  | S count' =>
      if (pgm_read_float TempToOhms i <? r)%f32 then Some i
      else scan_index TempToOhms count' (i + 1)%Z r
  end.

(** The conversion in the words of the specification, for a scan that
    begins at index [first]: the first index from [first] upward whose
    resistance is strictly less than [r] is interpolated with its
    predecessor, and [TEMP_OFFSET] is added; without such an index the
    result is the sentinel. *)
Definition first_below (TempToOhms : list F32.float) (first : Z)
    (r : F32.float) : option Z :=
  List.find (fun i => (pgm_read_float TempToOhms i <? r)%f32)
            (Zrange first (Z.to_nat (END - first))).

Definition interpolated_from (TempToOhms : list F32.float) (first : Z)
    (r : F32.float) : F32.float :=
  match first_below TempToOhms first r with
  | Some i =>
      (map r (pgm_read_float TempToOhms (i - 1)) (pgm_read_float TempToOhms i)
           (F32.of_int i - F32.of_int 1) (F32.of_int i)
       + F32.of_int TEMP_OFFSET)%f32
  | None => F32.of_int (-9999)
  end.

(** The monotonic table invariant: resistance strictly decreases from each
    entry to the next, over the 380 entries. *)
Definition strictly_decreasing (TempToOhms : list F32.float) : Prop :=
  forall i : Z, (0 <= i)%Z -> (i + 1 < END)%Z ->
    (pgm_read_float TempToOhms (i + 1) <? pgm_read_float TempToOhms i)%f32 = true.

Definition strictly_decreasingb (TempToOhms : list F32.float) : bool :=
  forallb (fun i => (pgm_read_float TempToOhms (i + 1) <? pgm_read_float TempToOhms i)%f32)
          (Zrange 0 (Z.to_nat (END - 1))).

(** Every entry is a binary32 number in canonical form, as every float
    read from memory is. *)
Definition table_valid (TempToOhms : list F32.float) : Prop :=
  forall i : Z, (0 <= i < END)%Z -> F32.valid (pgm_read_float TempToOhms i) = true.

Definition table_validb (TempToOhms : list F32.float) : bool :=
  forallb (fun i => F32.valid (pgm_read_float TempToOhms i))
          (Zrange 0 (Z.to_nat END)).

(** Modelled from the spec: the header [Thermistor-103J-G1J.h] that holds
    the table is missing. This table has what the data model asks of it,
    380 entries whose resistance decreases strictly as the index grows;
    the resistances themselves, [(399 - i)^2] ohms at index [i], are made
    up for concrete runs. *)
Definition sample_TempToOhms : list F32.float :=
  List.map (fun i => F32.of_int ((399 - i) * (399 - i))%Z) (Zrange 0 380).

(** A conversion to [int] for concrete runs: truncation toward zero.
    Outside the range of the 16-bit [int] the conversion is undefined in
    C; this instance answers 0 there. *)
Definition sample_float_to_int (x : F32.float) : Z :=
  let t :=
    match x with
    | S754_finite s m (Zneg p) => cond_Zopp s (Zpos m / 2 ^ Zpos p)%Z
    | S754_finite s m e => cond_Zopp s (Zpos m * 2 ^ e)%Z
    | _ => 0%Z
    end in
  if ((-32768 <=? t) && (t <=? 32767))%Z then t else 0%Z.

(** The two states of the session. *)
Inductive Session : Type := Inactive | Active.

Definition session (s : State) : Session :=
  if _logging s then Active else Inactive.

Definition toggled (x : Session) : Session :=
  match x with Inactive => Active | Active => Inactive end.

(** A transition of the session opens or closes the stream. *)
Definition is_transition (e : Event) : bool :=
  match e with
  | SD_open _ _ | File_close _ => true
  | _ => false
  end.

Definition transitions (tr : list Event) : nat :=
  List.length (filter is_transition tr).

(** What the cycle writes to the diagnostic output. *)
Fixpoint serial_output (tr : list Event) : list string :=
  match tr with
  | [] => []
  | Serial_print s :: tr' => s :: serial_output tr'
  | Serial_println s :: tr' => s :: serial_output tr'
  | _ :: tr' => serial_output tr'
  end.

(** The record of the cycle: the three temperatures in hundredths, as
    [loop] hands them to [logData]. *)
Definition cycle_record (TempToOhms : list F32.float)
    (float_to_int : F32.float -> Z) (w : World) : string :=
  record_line (rtc_now w)
    (float_to_int (readThermistorValue TempToOhms (analogRead w) A0 * F32.of_int 100)%f32)
    (float_to_int (readThermistorValue TempToOhms (analogRead w) A1 * F32.of_int 100)%f32)
    (float_to_int (readThermistorValue TempToOhms (analogRead w) A2 * F32.of_int 100)%f32).

(** The divider of [readResistorOhms] on a target whose [double] is
    binary64: the same expressions, evaluated in that format. *)
Module Double64.

Definition prec : Z := 53.
Definition emax : Z := 1024.

Definition of_int (z : Z) : spec_float := binary_normalize prec emax z 0 false.

Definition Vtherm_of (reading : Z) : spec_float :=
  SFmul prec emax (SFdiv prec emax (of_int reading) (of_int 1024)) (of_int 5).

Definition ohms_of_reading (reading : Z) : spec_float :=
  let Vtherm := Vtherm_of reading in
  let resistance :=
    SFdiv prec emax (of_int 10000)
          (SFsub prec emax (SFdiv prec emax (of_int 5) Vtherm) (of_int 1)) in
  resistance.

Definition readResistorOhms_divisors (reading : Z) : list spec_float :=
  [ of_int 1024;
    Vtherm_of reading;
    SFsub prec emax (SFdiv prec emax (of_int 5) (Vtherm_of reading)) (of_int 1) ].

End Double64.

(** A day of the month. *)
Definition valid_day (t : DateTime) : Prop := (1 <= day t <= 31)%Z.

(** The record format in the words of the specification. *)
Definition digit_char (d : Z) : ascii := ascii_of_nat (48 + Z.to_nat d).

Definition two_digits (n : Z) : string :=
  String (digit_char (n / 10)) (String (digit_char (n mod 10)) EmptyString).

Definition signed_decimal (n : Z) : string :=
  (if (n <? 0)%Z then "-" else "") ++ decimal n.

Definition hundredths (v : Z) : string :=
  signed_decimal (Z.quot v 100) ++ "." ++ decimal (Z.abs (Z.rem v 100)).

(** A time of day, and a value of the 16-bit [int]. *)
Definition valid_time (t : DateTime) : Prop :=
  (0 <= hour t < 24)%Z /\ (0 <= minute t < 60)%Z /\ (0 <= second t < 60)%Z.

Definition int_range (v : Z) : Prop := (-32768 <= v <= 32767)%Z.

Definition hundredths_variant (v : Z) : string :=
  fill " "%char (3 - String.length (signed_decimal (Z.quot v 100)))
       (signed_decimal (Z.quot v 100))
  ++ "." ++ decimal (Z.abs (Z.rem v 100)) ++ "C".

(** Worlds and states for concrete runs. *)
Definition sample_now : DateTime := mkDateTime 8 21 14 5 9.

Definition sample_world (reading : Z) (card_ok : bool) : World :=
  mkWorld (fun _ => reading) sample_now
          (fun name => if card_ok then file name else no_file).

Definition idle_state : State := mkState false false no_file.

(** ** Runs of several cycles *)

(** One cycle of a run: the presses that arrive before it and what it
    reads. *)
Definition Cycle : Type := (nat * World)%type.

(** The main firmware over a sequence of cycles, the presses of each cycle
    handled before its [loop]. *)
Fixpoint run (TempToOhms : list F32.float) (float_to_int : F32.float -> Z)
    (cycles : list Cycle) : M unit :=
  match cycles with
  | [] => ret tt
  | (n, w) :: rest =>
      presses n ;;
      loop TempToOhms float_to_int w ;;
      run TempToOhms float_to_int rest
  end.

Definition File_eqb (f g : File) : bool :=
  match f, g with
  | no_file, no_file => true
  | file a, file b => String.eqb a b
  | _, _ => false
  end.

(** Follows the stream through a trace: [cur] is the handle that the last
    [SD.open] returned and that has not been closed since. A stream may be
    opened only when none is open, and printed to or closed only when it is
    the open one; a trace that does otherwise has no result. *)
Fixpoint track (cur : option File) (tr : list Event) : option (option File) :=
  match tr with
  | [] => Some cur
  | SD_open _ f :: tr' =>
      match cur with
      | None => track (Some f) tr'
      | Some _ => None
      end
  | File_println f _ :: tr' =>
      match cur with
      | Some g => if File_eqb f g then track cur tr' else None
      | None => None
      end
  | File_close f :: tr' =>
      match cur with
      | Some g => if File_eqb f g then track None tr' else None
      | None => None
      end
  | _ :: tr' => track cur tr'
  end.

(** The stream the globals say is open. *)
Definition open_stream (s : State) : option File :=
  if _logging s then Some (_myFile s) else None.

(** The cycles of a run that find a toggle pending. *)
Definition pressed_cycles (cycles : list Cycle) : nat :=
  List.length (filter (fun c => negb (Nat.eqb (fst c) 0)) cycles).

(** The sum of the arguments of the [delay] calls of a trace, in
    milliseconds. *)
Fixpoint total_delay (tr : list Event) : Z :=
  match tr with
  | [] => 0
  | delay ms :: tr' => (ms + total_delay tr')%Z
  | _ :: tr' => total_delay tr'
  end.

(** ** Start-up *)

Inductive PinMode : Type := OUTPUT | INPUT_PULLUP.

(** What [attachInterrupt] is given as its first argument: a number made
    by [digitalPinToInterrupt] from a pin, or a bare number. *)
Inductive InterruptNumber : Type :=
| digitalPinToInterrupt (pin : Z)
| interrupt_number (n : Z).

(** The calls of [setup], those of the cycles among them. *)
Inductive BootEvent : Type :=
| boot_call (e : Event)
| pinMode (pin : Z) (mode : PinMode)
| Serial_begin (baud : Z)
| rtc_begin (found : bool)
| rtc_adjust_build_time
| SD_begin (cs : Z) (found : bool)
| attachInterrupt_logIsr_RISING (interrupt : InterruptNumber).

(** What the peripherals answer at start-up. *)
Record Hardware : Type := mkHardware {
  rtc_found : bool;
  rtc_initialized : bool;
  SD_found : Z -> bool
}.

(** Start-up computations: as [M], with [None] for a computation that has
    not returned when the fuel of its loops is used up. *)
Definition Boot (A : Type) : Type := State -> option A * State * list BootEvent.

Definition boot_ret {A : Type} (a : A) : Boot A := fun s => (Some a, s, []).

Definition boot_bind {A B : Type} (c : Boot A) (k : A -> Boot B) : Boot B :=
  fun s =>
    let '(oa, s1, t1) := c s in
    match oa with
    | None => (None, s1, t1)
    | Some a =>
        let '(ob, s2, t2) := k a s1 in
        (ob, s2, (t1 ++ t2)%list)
    end.

Declare Scope Boot_scope.
Delimit Scope Boot_scope with Boot.
Notation "c ;; k" := (boot_bind c (fun _ => k))
  (at level 61, right associativity) : Boot_scope.

Definition boot_emit (e : BootEvent) : Boot unit := fun s => (Some tt, s, [e]).
Definition boot_println (s : string) : Boot unit :=
  boot_emit (boot_call (Serial_println s)).
Definition boot_print (s : string) : Boot unit :=
  boot_emit (boot_call (Serial_print s)).
Definition still_running {A : Type} : Boot A := fun s => (None, s, []).
Definition boot_set_triggered (b : bool) : Boot unit :=
  fun s => (Some tt, mkState b (_logging s) (_myFile s), []).

Definition returned {A : Type} (r : option A * State * list BootEvent) : bool :=
  match fst (fst r) with Some _ => true | None => false end.
Definition boot_state {A : Type} (r : option A * State * list BootEvent) : State :=
  snd (fst r).
Definition boot_trace {A : Type} (r : option A * State * list BootEvent)
  : list BootEvent := snd r.

(** What start-up writes to the diagnostic output. *)
Fixpoint boot_serial (tr : list BootEvent) : list string :=
  match tr with
  | [] => []
  | boot_call (Serial_print s) :: tr' => s :: boot_serial tr'
  | boot_call (Serial_println s) :: tr' => s :: boot_serial tr'
  | _ :: tr' => boot_serial tr'
  end.

Definition is_clock_adjust (e : BootEvent) : bool :=
  match e with rtc_adjust_build_time => true | _ => false end.

Definition is_attach (e : BootEvent) : bool :=
  match e with attachInterrupt_logIsr_RISING _ => true | _ => false end.

Definition is_led_write (level : bool) (e : BootEvent) : bool :=
  match e with
  | boot_call (digitalWrite _ high) => Bool.eqb high level
  | _ => false
  end.

Definition newline : string := String "010"%char EmptyString.

(** [#define CS 10] *)
Definition CS : Z := 10.

Local Open Scope Boot_scope.

(** The [for] loop of [errorBlink]: [count] pulses are left. *)
Fixpoint errorBlink_for (count : nat) : Boot unit :=
  match count with
  | O => boot_ret tt
  | S count' =>
      boot_emit (boot_call (digitalWrite LED LOW)) ;;
      boot_emit (boot_call (delay 100)) ;;
      boot_emit (boot_call (digitalWrite LED HIGH)) ;;
      boot_emit (boot_call (delay 200)) ;;
      errorBlink_for count'
  end.

(** [void errorBlink(int code, bool blocking = false)]: [fuel] bounds the
    rounds of [while (blocking)]. *)
Fixpoint errorBlink (fuel : nat) (code : Z) (blocking : bool) : Boot unit :=
  if blocking then
    match fuel with
    | O => still_running
    | S fuel' =>
        errorBlink_for (Z.to_nat code) ;;
        boot_emit (boot_call (delay 2000)) ;;
        errorBlink fuel' code blocking
    end
  else boot_ret tt.

(** [void setup()]; [FORCE_TIME_SET] is not defined. Both calls of
    [errorBlink] leave [blocking] at its default. *)
Definition setup (fuel : nat) (hw : Hardware) : Boot unit :=
  boot_emit (pinMode LED OUTPUT) ;;
  boot_emit (Serial_begin 9600) ;;
  boot_emit (rtc_begin (rtc_found hw)) ;;
  (if negb (rtc_found hw) then
     boot_println "Couldn't find RTC" ;;
     errorBlink fuel 2 false
   else boot_ret tt) ;;
  (if negb (rtc_initialized hw) then
     boot_println ("Initializing RTC" ++ newline) ;;
     boot_emit rtc_adjust_build_time
   else
     boot_println "RTC initialized") ;;
  boot_println "Initializing SD card..." ;;
  boot_emit (SD_begin CS (SD_found hw CS)) ;;
  (if negb (SD_found hw CS) then
     boot_println "SD card initialization failed!" ;;
     errorBlink fuel 5 false
   else boot_ret tt) ;;
  boot_println "Initialization done" ;;
  boot_emit (pinMode START INPUT_PULLUP) ;;
  boot_emit (attachInterrupt_logIsr_RISING (digitalPinToInterrupt START)) ;;
  boot_emit (boot_call (digitalWrite LED HIGH)) ;;
  boot_set_triggered false.

Local Close Scope Boot_scope.

(** The globals as the main firmware initialises them. *)
Definition initial_state : State := mkState false false no_file.

(** ** The second firmware variant *)

Module Part000.

(** [#define LED 13] *)
Definition LED : Z := 13.

(** [bool _logging = true;] *)
Definition initial_state : State := mkState false true no_file.

Local Open Scope Boot_scope.

Fixpoint errorBlink_for (count : nat) : Boot unit :=
  match count with
  | O => boot_ret tt
  | S count' =>
      boot_emit (boot_call (digitalWrite LED HIGH)) ;;
      boot_emit (boot_call (delay 100)) ;;
      boot_emit (boot_call (digitalWrite LED LOW)) ;;
      boot_emit (boot_call (delay 200)) ;;
      errorBlink_for count'
  end.

Fixpoint errorBlink_while (fuel : nat) (code : Z) (blocking : bool) : Boot unit :=
  if blocking then
    match fuel with
    | O => still_running
    | S fuel' =>
        errorBlink_for (Z.to_nat code) ;;
        boot_emit (boot_call (delay 2000)) ;;
        errorBlink_while fuel' code blocking
    end
  else boot_ret tt.

(** [void errorBlink(int code, bool blocking = false)] *)
Definition errorBlink (fuel : nat) (code : Z) (blocking : bool) : Boot unit :=
  boot_emit (pinMode LED OUTPUT) ;;
  errorBlink_while fuel code blocking.

(** [void setup()] *)
Definition setup (fuel : nat) (hw : Hardware) : Boot unit :=
  boot_emit (Serial_begin 9600) ;;
  boot_emit (rtc_begin (rtc_found hw)) ;;
  (if negb (rtc_found hw) then
     boot_println "Couldn't find RTC" ;;
     errorBlink fuel 2 false
   else boot_ret tt) ;;
  (if negb (rtc_initialized hw) then
     boot_println ("Initializing RTC" ++ newline) ;;
     boot_emit rtc_adjust_build_time
   else
     boot_println "RTC initialized") ;;
  boot_print ("Initializing SD card..." ++ newline) ;;
  boot_emit (SD_begin CS (SD_found hw CS)) ;;
  (if negb (SD_found hw CS) then
     boot_println "SD card initialization failed!" ;;
     errorBlink fuel 4 false
   else boot_ret tt) ;;
  boot_println "Initialization done" ;;
  boot_emit (pinMode START INPUT_PULLUP) ;;
  boot_emit (pinMode LED OUTPUT) ;;
  boot_emit (attachInterrupt_logIsr_RISING (interrupt_number START)).

Local Close Scope Boot_scope.

Section Controller.

Variable TempToOhms : list F32.float.
Variable float_to_int : F32.float -> Z.
Variable w : World.

(** The name of the log file, month and day, hour and minute. *)
Definition log_name (now : DateTime) : string :=
  snprintf LINE_LEN "%02d-%02dT%02d-%02d.txt"
    [ month now; day now; hour now; minute now ].

(** [void startLog()] *)
Definition startLog : M unit :=
  let now := rtc_now w in
  let buffer := log_name now in
  emit (Serial_print "Recording started: ") ;;
  emit (Serial_println buffer) ;;
  let opened := SD_open_result w buffer in
  emit (SD_open buffer opened) ;;
  set_myFile opened.

(** [void logIsr()] *)
Definition logIsr : M unit := set_triggered true.

(** [void loop()]; [stopLog] and the converter are those of the main
    firmware, [logData] is [logData_variant]. *)
Definition loop : M unit :=
  triggered <- get _triggered ;;
  (if triggered then
     set_triggered false ;;
     logging <- get _logging ;;
     if logging then
       set_logging false ;;
       stopLog
     else
       set_logging true ;;
       startLog
   else ret tt) ;;
  logging <- get _logging ;;
  (if logging then emit (digitalWrite 13 HIGH) else ret tt) ;;
  let t1 := readThermistorValue TempToOhms (analogRead w) A0 in
  emit (delay 50) ;;
  let t2 := readThermistorValue TempToOhms (analogRead w) A1 in
  emit (delay 50) ;;
  let t3 := readThermistorValue TempToOhms (analogRead w) A2 in
  logData_variant w (float_to_int (t1 * F32.of_int 100)%f32)
                    (float_to_int (t2 * F32.of_int 100)%f32)
                    (float_to_int (t3 * F32.of_int 100)%f32) ;;
  emit (delay 100) ;;
  emit (digitalWrite 13 LOW) ;;
  emit (delay LOG_INTERVAL).

End Controller.

(** The record of a cycle of this variant. *)
Definition cycle_record (TempToOhms : list F32.float)
    (float_to_int : F32.float -> Z) (w : World) : string :=
  record_line_variant (rtc_now w)
    (float_to_int (readThermistorValue TempToOhms (analogRead w) A0 * F32.of_int 100)%f32)
    (float_to_int (readThermistorValue TempToOhms (analogRead w) A1 * F32.of_int 100)%f32)
    (float_to_int (readThermistorValue TempToOhms (analogRead w) A2 * F32.of_int 100)%f32).

Fixpoint presses (n : nat) : M unit :=
  match n with
  | O => ret tt
  | S n' => logIsr ;; presses n'
  end.

End Part000.

(** A month of the year. *)
Definition valid_month (t : DateTime) : Prop := (1 <= month t <= 12)%Z.

(** The two digits of a number below one hundred, read back. *)
Definition read_two_digits (s : string) : option Z :=
  match s with
  | String a (String b _) =>
      match digit_value a, digit_value b with
      | Some x, Some y => Some (10 * Z.of_nat x + Z.of_nat y)%Z
      | _, _ => None
      end
  | _ => None
  end.

(** Whether start-up printed the text [s]. *)
Definition printed (s : string) (tr : list BootEvent) : bool :=
  existsb (String.eqb s) (boot_serial tr).

Definition is_pause (e : BootEvent) : bool :=
  match e with
  | boot_call (delay ms) => Z.eqb ms 2000
  | _ => false
  end.

Definition count_events (p : BootEvent -> bool) (tr : list BootEvent) : nat :=
  List.length (filter p tr).

Definition is_open (e : Event) : bool :=
  match e with SD_open _ _ => true | _ => false end.

(** The day, hour and minute read back from a log name of the main
    firmware, and the month, day, hour and minute from one of the second
    variant. *)
Definition read_log_name (s : string) : option (Z * Z * Z) :=
  match read_two_digits (substring 0 2 s), read_two_digits (substring 3 2 s),
        read_two_digits (substring 5 2 s) with
  | Some d, Some h, Some m => Some (d, h, m)
  | _, _, _ => None
  end.

Definition read_log_name_variant (s : string) : option (Z * Z * Z * Z) :=
  match read_two_digits (substring 0 2 s), read_two_digits (substring 3 2 s),
        read_two_digits (substring 6 2 s), read_two_digits (substring 9 2 s) with
  | Some mo, Some d, Some h, Some m => Some (mo, d, h, m)
  | _, _, _, _ => None
  end.

(** A number that is a NaN or an infinity. *)
Definition not_finite (x : F32.float) : bool :=
  match x with
  | S754_nan | S754_infinity _ => true
  | _ => false
  end.

(** A canonical number that is zero or positive and finite. *)
Definition finite_nonnegative (x : F32.float) : bool :=
  match x with
  | S754_zero _ => true
  | S754_finite false _ _ => F32.valid x
  | _ => false
  end.

(** ** Setting the clock *)

(** The white space of C: the blank and the characters 9 to 13. *)
Definition is_space (c : ascii) : bool :=
  let n := nat_of_ascii c in
  (Nat.eqb n 32 || ((9 <=? n) && (n <=? 13)))%nat.

Fixpoint skip_spaces (s : string) : string :=
  match s with
  | EmptyString => EmptyString
  | String c r => if is_space c then skip_spaces r else s
  end.

Definition is_digit (c : ascii) : bool :=
  match digit_value c with Some _ => true | None => false end.

(** The digits a string begins with, and what follows them. *)
Fixpoint digit_prefix (s : string) : string * string :=
  match s with
  | EmptyString => (EmptyString, EmptyString)
  | String c r =>
      if is_digit c then
        let '(ds, rest) := digit_prefix r in (String c ds, rest)
      else (EmptyString, s)
  end.

(** One [%d] conversion of [sscanf]: white space is skipped, a sign may
    come first, and one digit at least must follow; the result is the
    number and the rest of the input. *)
Definition scan_d (s : string) : option (Z * string) :=
  let s1 := skip_spaces s in
  let '(negative, s2) :=
    match s1 with
    | String c r =>
        if Ascii.eqb c "-" then (true, r)
        else if Ascii.eqb c "+" then (false, r)
        else (false, s1)
    | EmptyString => (false, s1)
    end in
  let '(ds, rest) := digit_prefix s2 in
  match ds, NilEmpty.uint_of_string ds with
  | String _ _, Some u =>
      let v := Z.of_N (N.of_uint u) in
      Some (if negative then (- v)%Z else v, rest)
  | _, _ => None
  end.

(** [sscanf] for formats made of [%d] conversions and plain characters:
    the numbers converted before the first failure, whose count [sscanf]
    returns. *)
Fixpoint sscanf (fmt : string) (input : string) : list Z :=
  match fmt with
  | EmptyString => []
  | String c fmt' =>
      if Ascii.eqb c "%" then
        match fmt' with
        | String d fmt'' =>
            if Ascii.eqb d "d" then
              match scan_d input with
              | Some (v, rest) => v :: sscanf fmt'' rest
              | None => []
              end
            else []
        | EmptyString => []
        end
      else
        match input with
        | String c' rest => if Ascii.eqb c c' then sscanf fmt' rest else []
        | EmptyString => []
        end
  end.

(** The characters before the first NUL: what a [char] array holds as a
    string. *)
Fixpoint c_str (s : string) : string :=
  match s with
  | EmptyString => EmptyString
  | String c r => if Ascii.eqb c "000" then EmptyString else String c (c_str r)
  end.

Local Open Scope Boot_scope.

(** [void setClock(String t)]: [toCharArray] leaves the first 14
    characters of [t] in [char_t]; the [DateTime now] made from the
    scanned numbers is not used. *)
Definition setClock (t : string) : Boot unit :=
  let char_t := c_str (substring 0 14 t) in
  if negb (Nat.eqb (List.length (sscanf "%d,%d:%d:%d" char_t)) 4) then
    boot_print "Could not scan input: " ;;
    boot_println t
  else
    boot_emit rtc_adjust_build_time ;;
    boot_print "Time set to " ;;
    boot_println char_t.

Local Close Scope Boot_scope.

(** A text that does not go on with a digit. *)
Definition starts_without_digit (s : string) : Prop :=
  match s with
  | EmptyString => True
  | String c _ => is_digit c = false
  end.

(** A handle that tests true: an open file. *)
Definition is_valid (f : File) : bool :=
  match f with
  | file _ => true
  | no_file => false
  end.

(** The trace appends [line] to an open stream: it prints it to a valid
    handle. A print to the invalid handle is dropped by the SD library. *)
Definition appended (line : string) (tr : list Event) : Prop :=
  exists name : string, In (File_println (file name) line) tr.




(** Modelled from the spec: a second made-up table, strictly decreasing,
    on which an interpolated value is the number -9999; entry [i] is
    [(10081 - i) / 2] ohms. *)
Definition coincidence_TempToOhms : list F32.float :=
  List.map (fun i => (F32.of_int (10081 - i)%Z / F32.of_int 2)%f32) (Zrange 0 380).

(** * Properties *)

(** ** Ranges of integers *)

Lemma In_Zrange (lo : Z) (n : nat) (z : Z) :
  In z (Zrange lo n) <-> (lo <= z < lo + Z.of_nat n)%Z.
Proof.
  unfold Zrange. rewrite in_map_iff. split.
  - intros [k [Hk Hin]]. apply in_seq in Hin. lia.
  - intros Hz. exists (Z.to_nat (z - lo)). split; [lia|].
    apply in_seq. lia.
Qed.

Lemma Zrange_forallb (P : Z -> bool) (lo : Z) (n : nat) :
  forallb P (Zrange lo n) = true ->
  forall z, (lo <= z < lo + Z.of_nat n)%Z -> P z = true.
Proof.
  intros H z Hz. rewrite forallb_forall in H. apply H, In_Zrange, Hz.
Qed.

Lemma Zrange_S (lo : Z) (n : nat) :
  Zrange lo (S n) = lo :: Zrange (lo + 1) n.
Proof.
  unfold Zrange. cbn [seq List.map]. f_equal; [lia|].
  rewrite <- seq_shift, map_map. apply map_ext. intros k. lia.
Qed.

(** ** The order of binary32 numbers *)

Module F32Facts.

Lemma compare_cont_Eq_refl (m : positive) : Pos.compare_cont Eq m m = Eq.
Proof. apply Pos.compare_refl. Qed.

Lemma ltb_irrefl (x : F32.float) : F32.ltb x x = false.
Proof.
  unfold F32.ltb, SFltb.
  destruct x as [s|s| |s m e]; cbn; try reflexivity; destruct s; cbn;
    try reflexivity; rewrite Z.compare_refl, compare_cont_Eq_refl; reflexivity.
Qed.

Lemma ltb_finite_spec (s1 s2 : bool) (m1 m2 : positive) (e1 e2 : Z) :
  F32.ltb (S754_finite s1 m1 e1) (S754_finite s2 m2 e2) = true <->
  match s1, s2 with
  | true, false => True
  | false, true => False
  | false, false => (e1 < e2)%Z \/ (e1 = e2 /\ (m1 < m2)%positive)
  | true, true => (e2 < e1)%Z \/ (e1 = e2 /\ (m2 < m1)%positive)
  end.
Proof.
  unfold F32.ltb, SFltb. cbn.
  change (Pos.compare_cont Eq m1 m2) with (Pos.compare m1 m2).
  destruct s1, s2; cbn; try (split; [intros _; exact I | reflexivity]);
    try (split; [discriminate | intros []]).
  all: destruct (Z.compare_spec e1 e2) as [He|He|He];
    [ destruct (Pos.compare_spec m1 m2) as [Hm|Hm|Hm]; cbn | | ];
    split; intros H; try discriminate H; try reflexivity;
    try (right; split; assumption); try (left; assumption);
    exfalso; destruct H as [H|[H1 H]]; subst; lia.
Qed.

Ltac by_signs :=
  solve [ repeat match goal with s : bool |- _ => destruct s end;
          cbn; intros; first [discriminate | reflexivity | congruence] ].

Lemma ltb_asym (x y : F32.float) :
  F32.ltb x y = true -> F32.ltb y x = false.
Proof.
  destruct x as [s1|s1| |s1 m1 e1], y as [s2|s2| |s2 m2 e2]; try by_signs.
  intros H. apply ltb_finite_spec in H.
  destruct (F32.ltb (S754_finite s2 m2 e2) (S754_finite s1 m1 e1)) eqn:E;
    [|reflexivity].
  apply ltb_finite_spec in E. destruct s1, s2; try contradiction; lia.
Qed.

Lemma ltb_trans (x y z : F32.float) :
  F32.ltb x y = true -> F32.ltb y z = true -> F32.ltb x z = true.
Proof.
  destruct x as [s1|s1| |s1 m1 e1], y as [s2|s2| |s2 m2 e2],
           z as [s3|s3| |s3 m3 e3]; try by_signs.
  intros H1 H2. apply ltb_finite_spec in H1. apply ltb_finite_spec in H2.
  apply ltb_finite_spec.
  destruct s1, s2, s3; try contradiction; try exact I; lia.
Qed.

End F32Facts.

(** ** The scan of the calibration table *)

Section ScanFacts.

Variable TempToOhms : list F32.float.

Local Abbreviation T := (pgm_read_float TempToOhms).

(** The loop returns the interpolation at the index where it breaks, and
    the initial value of [temp] when it does not break. *)
Lemma scan_scan_index (count : nat) (i : Z) (r : F32.float) :
  scan TempToOhms count i r =
  match scan_index TempToOhms count i r with
  | Some j =>
      (map r (T (j - 1)) (T j) (F32.of_int j - F32.of_int 1) (F32.of_int j)
       + F32.of_int TEMP_OFFSET)%f32
  | None => F32.of_int (-9999)
  end.
Proof.
  revert i. induction count as [|count IH]; intros i; cbn [scan scan_index].
  - reflexivity.
  - destruct (T i <? r)%f32; [reflexivity | apply IH].
Qed.

Lemma scan_index_find (count : nat) (i : Z) (r : F32.float) :
  scan_index TempToOhms count i r =
  List.find (fun j => (T j <? r)%f32) (Zrange i count).
Proof.
  revert i. induction count as [|count IH]; intros i.
  - reflexivity.
  - rewrite Zrange_S. cbn [scan_index List.find].
    destruct (T i <? r)%f32; [reflexivity | apply IH].
Qed.

(** The code is the conversion of the specification for a scan that
    begins at [START + 1], which is index 3. *)
Lemma resistanceToTemperature_interpolated (r : F32.float) :
  resistanceToTemperature TempToOhms r =
  interpolated_from TempToOhms (START + 1) r.
Proof.
  unfold resistanceToTemperature, interpolated_from, first_below.
  rewrite scan_scan_index, scan_index_find. reflexivity.
Qed.

Lemma scan_index_none (count : nat) (i : Z) (r : F32.float) :
  (forall j, (i <= j < i + Z.of_nat count)%Z -> (T j <? r)%f32 = false) ->
  scan_index TempToOhms count i r = None.
Proof.
  revert i. induction count as [|count IH]; intros i H; cbn [scan_index].
  - reflexivity.
  - rewrite H by lia. apply IH. intros j Hj. apply H. lia.
Qed.

Lemma scan_index_at (count : nat) (i k : Z) (r : F32.float) :
  (i <= k < i + Z.of_nat count)%Z ->
  (forall j, (i <= j < k)%Z -> (T j <? r)%f32 = false) ->
  (T k <? r)%f32 = true ->
  scan_index TempToOhms count i r = Some k.
Proof.
  revert i. induction count as [|count IH]; intros i Hk Hlt Hat;
    cbn [scan_index].
  - lia.
  - destruct (Z.eq_dec i k) as [->|Hne].
    + rewrite Hat. reflexivity.
    + rewrite Hlt by lia. apply IH; [lia | | exact Hat].
      intros j Hj. apply Hlt. lia.
Qed.

Lemma scan_index_some (count : nat) (i j : Z) (r : F32.float) :
  scan_index TempToOhms count i r = Some j ->
  (i <= j < i + Z.of_nat count)%Z /\
  (T j <? r)%f32 = true /\
  forall k, (i <= k < j)%Z -> (T k <? r)%f32 = false.
Proof.
  revert i. induction count as [|count IH]; intros i; cbn [scan_index];
    [discriminate|].
  destruct (T i <? r)%f32 eqn:E.
  - intros [= <-]. split; [lia|]. split; [exact E|]. intros k Hk. lia.
  - intros H. apply IH in H. destruct H as (H1 & H2 & H3).
    split; [lia|]. split; [exact H2|]. intros k Hk.
    destruct (Z.eq_dec k i) as [->|Hne]; [exact E | apply H3; lia].
Qed.

Lemma scan_index_none_inv (count : nat) (i : Z) (r : F32.float) :
  scan_index TempToOhms count i r = None ->
  forall k, (i <= k < i + Z.of_nat count)%Z -> (T k <? r)%f32 = false.
Proof.
  revert i. induction count as [|count IH]; intros i; cbn [scan_index].
  - intros _ k Hk. lia.
  - destruct (T i <? r)%f32 eqn:E; [discriminate|].
    intros H k Hk. destruct (Z.eq_dec k i) as [->|Hne]; [exact E|].
    apply (IH _ H). lia.
Qed.

(** On a strictly decreasing table a later entry is below an earlier
    one. *)
Lemma decreasing_lt (i j : Z) :
  strictly_decreasing TempToOhms ->
  (0 <= i)%Z -> (i < j)%Z -> (j < END)%Z ->
  (T j <? T i)%f32 = true.
Proof.
  intros Hdec Hi Hij Hj.
  assert (H : forall n : nat, (i + 1 + Z.of_nat n < END)%Z ->
            (T (i + 1 + Z.of_nat n) <? T i)%f32 = true).
  { induction n as [|n IH]; intros Hn.
    - replace (i + 1 + Z.of_nat 0)%Z with (i + 1)%Z by lia.
      apply Hdec; lia.
    - apply F32Facts.ltb_trans with (y := T (i + 1 + Z.of_nat n)).
      + replace (i + 1 + Z.of_nat (S n))%Z with (i + 1 + Z.of_nat n + 1)%Z by lia.
        apply Hdec; lia.
      + apply IH. lia. }
  replace j with (i + 1 + Z.of_nat (Z.to_nat (j - i - 1)))%Z by lia.
  apply H. lia.
Qed.

Lemma decreasing_not_lt (i j : Z) :
  strictly_decreasing TempToOhms ->
  (0 <= i)%Z -> (i <= j)%Z -> (j < END)%Z ->
  (T i <? T j)%f32 = false.
Proof.
  intros Hdec Hi Hij Hj. destruct (Z.eq_dec i j) as [->|Hne].
  - apply F32Facts.ltb_irrefl.
  - apply F32Facts.ltb_asym, decreasing_lt; try assumption. lia.
Qed.

Lemma strictly_decreasingb_spec :
  strictly_decreasingb TempToOhms = true -> strictly_decreasing TempToOhms.
Proof.
  unfold strictly_decreasingb, strictly_decreasing. intros H i Hi Hend.
  apply (Zrange_forallb _ _ _ H). unfold END in *. lia.
Qed.

Lemma table_validb_spec :
  table_validb TempToOhms = true -> table_valid TempToOhms.
Proof.
  unfold table_validb, table_valid. intros H i Hi.
  apply (Zrange_forallb _ _ _ H). unfold END in *. lia.
Qed.

End ScanFacts.

Lemma sample_TempToOhms_decreasing : strictly_decreasing sample_TempToOhms.
Proof. apply strictly_decreasingb_spec. vm_compute. reflexivity. Qed.

Lemma sample_TempToOhms_valid : table_valid sample_TempToOhms.
Proof. apply table_validb_spec. vm_compute. reflexivity. Qed.

(** ** From ADC counts to ohms *)

(** C9: for every raw reading, [readResistorOhms] computes
    [R2 / (Vin / V_therm - 1)] with [V_therm = reading / 1024 * Vin],
    [Vin = 5.0] and [R2 = 10000]; the mid-scale reading 512 yields exactly
    10000 ohms. *)
Theorem readResistorOhms_divider :
  (forall (analogRead : Z -> Z) (channel : Z),
     readResistorOhms analogRead channel =
     (F32.of_int 10000 /
      (F32.of_int 5 /
       (F32.of_int (analogRead channel) / F32.of_int 1024 * F32.of_int 5)
       - F32.of_int 1))%f32) /\
  (forall channel : Z,
     Vtherm_of 512 = (F32.of_int 5 / F32.of_int 2)%f32 /\
     readResistorOhms (fun _ => 512%Z) channel = F32.of_int 10000).
Proof.
  split.
  - intros analogRead channel. reflexivity.
  - intros channel. split; vm_compute; reflexivity.
Qed.

Lemma readResistorOhms_last_divisor (reading : Z) :
  ohms_of_reading reading =
  (R2 / nth 2 (readResistorOhms_divisors reading) S754_nan)%f32.
Proof. reflexivity. Qed.



(** The same holds where [double] is binary64: 512 gives exactly 10000
    ohms, the reading 0 divides by a zero voltage, and no other reading up
    to 1023 makes a divisor zero. *)
Lemma divider_binary64 :
  Double64.ohms_of_reading 512 = Double64.of_int 10000 /\
  F32.is_zero (Double64.Vtherm_of 0) = true /\
  (forall reading : Z, (1 <= reading <= 1023)%Z ->
     forallb (fun d => negb (F32.is_zero d) && negb (F32.is_nan d))
             (Double64.readResistorOhms_divisors reading) = true).
Proof.
  split; [vm_compute; reflexivity|]. split; [vm_compute; reflexivity|].
  intros reading Hr.
  apply (Zrange_forallb
           (fun z => forallb (fun d => negb (F32.is_zero d) && negb (F32.is_nan d))
                             (Double64.readResistorOhms_divisors z)) 1 1023).
  - vm_compute. reflexivity.
  - lia.
Qed.

(** ** From ohms to degrees *)

(** C1: the scan does not begin at index 1. With the sample table and the
    reading 963 (about 157869 ohms, between the entries at the indices 2
    and 1) a scan from index 1 stops at index 2, while the loop, which
    begins at [START + 1] with the pin number [START = 2], stops at index 3
    and returns another temperature, extrapolated from the entries 2 and
    3. *)
Theorem scan_begins_at_button_pin_plus_one :
  let r := readResistorOhms (fun _ => 963%Z) A0 in
  (pgm_read_float sample_TempToOhms 2 <? r)%f32 = true /\
  (pgm_read_float sample_TempToOhms 1 <? r)%f32 = false /\
  first_below sample_TempToOhms 1 r = Some 2%Z /\
  scan_index sample_TempToOhms (Z.to_nat (END - (START + 1))) (START + 1) r
    = Some 3%Z /\
  resistanceToTemperature sample_TempToOhms r
    = S754_finite true 10266547 (-17) /\
  interpolated_from sample_TempToOhms 1 r
    = S754_finite true 10266439 (-17) /\
  resistanceToTemperature sample_TempToOhms r
    <> interpolated_from sample_TempToOhms 1 r.
Proof.
  cbv zeta. repeat split; try (vm_compute; reflexivity).
  vm_compute. discriminate.
Qed.

(** C2, as stated, fails: the reading 1000 gives a resistance above the
    entry at index 1 (and above the whole sample table), and the converter
    returns about -404.68, not the sentinel. *)
Lemma above_table_maximum_not_sentinel :
  let r := readResistorOhms (fun _ => 1000%Z) A0 in
  strictly_decreasing sample_TempToOhms /\
  (pgm_read_float sample_TempToOhms 1 <? r)%f32 = true /\
  (pgm_read_float sample_TempToOhms 0 <? r)%f32 = true /\
  resistanceToTemperature sample_TempToOhms r = S754_finite true 13260537 (-15) /\
  resistanceToTemperature sample_TempToOhms r <> F32.of_int (-9999).
Proof.
  cbv zeta. split; [exact sample_TempToOhms_decreasing|].
  repeat split; try (vm_compute; reflexivity).
  vm_compute. discriminate.
Qed.

(** C2, amended: on a strictly decreasing table the loop falls through,
    leaving the sentinel -9999.0, exactly when the input is not strictly
    greater than the last entry (index 379, the table's minimum). For an
    input strictly greater than the entry at index 1 the loop does not
    fall through: it breaks at an index [j], and the result is what [map]
    interpolates between the entries [j - 1] and [j], plus [TEMP_OFFSET],
    a computed number that can itself be -9999 (see
    [interpolation_can_equal_sentinel]). *)
Theorem sentinel_at_or_below_table_minimum
    (TempToOhms : list F32.float) (r : F32.float) :
  strictly_decreasing TempToOhms ->
  let n := Z.to_nat (END - (START + 1)) in
  (scan_index TempToOhms n (START + 1) r = None <->
   (pgm_read_float TempToOhms (END - 1) <? r)%f32 = false) /\
  ((pgm_read_float TempToOhms (END - 1) <? r)%f32 = false ->
   resistanceToTemperature TempToOhms r = F32.of_int (-9999)) /\
  ((pgm_read_float TempToOhms 1 <? r)%f32 = true ->
   exists j : Z,
     scan_index TempToOhms n (START + 1) r = Some j /\
     (0 < j < END)%Z /\
     (pgm_read_float TempToOhms j <? r)%f32 = true /\
     resistanceToTemperature TempToOhms r =
     (map r (pgm_read_float TempToOhms (j - 1)) (pgm_read_float TempToOhms j)
          (F32.of_int j - F32.of_int 1) (F32.of_int j)
      + F32.of_int TEMP_OFFSET)%f32).
Proof.
  intros Hdec n.
  assert (Hnone : (pgm_read_float TempToOhms (END - 1) <? r)%f32 = false ->
                  scan_index TempToOhms n (START + 1) r = None).
  { intros H. apply scan_index_none. intros j Hj.
    destruct (pgm_read_float TempToOhms j <? r)%f32 eqn:E; [|reflexivity].
    destruct (Z.eq_dec j (END - 1)) as [->|Hne]; [congruence|].
    rewrite <- H. symmetry.
    apply F32Facts.ltb_trans with (y := pgm_read_float TempToOhms j);
      [|exact E].
    apply decreasing_lt; try assumption; unfold n, END, START in *; lia. }
  unfold resistanceToTemperature. fold n. split; [|split].
  - split; [|exact Hnone].
    intros H. apply (scan_index_none_inv _ _ _ _ H).
    unfold n, END, START. lia.
  - intros H. rewrite scan_scan_index, (Hnone H). reflexivity.
  - intros H.
    assert (Hfirst : (pgm_read_float TempToOhms (START + 1) <? r)%f32 = true).
    { apply F32Facts.ltb_trans with (y := pgm_read_float TempToOhms 1);
        [|exact H].
      apply decreasing_lt; try assumption; unfold END, START; lia. }
    assert (Hat : scan_index TempToOhms n (START + 1) r = Some (START + 1)%Z).
    { apply scan_index_at; [unfold n, END, START; lia | | exact Hfirst].
      intros j Hj. lia. }
    exists (START + 1)%Z. split; [exact Hat|].
    split; [unfold START, END; lia|]. split; [exact Hfirst|].
    rewrite scan_scan_index, Hat. reflexivity.
Qed.

Lemma sentinel_at_or_below_table_minimum_witness :
  resistanceToTemperature sample_TempToOhms (F32.of_int 400) = F32.of_int (-9999) /\
  exists j : Z,
    scan_index sample_TempToOhms (Z.to_nat (END - (START + 1))) (START + 1)
               (F32.of_int 200000) = Some j /\
    (0 < j < END)%Z /\
    (pgm_read_float sample_TempToOhms j <? F32.of_int 200000)%f32 = true /\
    resistanceToTemperature sample_TempToOhms (F32.of_int 200000) =
    (map (F32.of_int 200000)
         (pgm_read_float sample_TempToOhms (j - 1)) (pgm_read_float sample_TempToOhms j)
         (F32.of_int j - F32.of_int 1) (F32.of_int j)
     + F32.of_int TEMP_OFFSET)%f32.
Proof.
  destruct (sentinel_at_or_below_table_minimum sample_TempToOhms (F32.of_int 400)
              sample_TempToOhms_decreasing) as (_ & Hlow & _).
  destruct (sentinel_at_or_below_table_minimum sample_TempToOhms (F32.of_int 200000)
              sample_TempToOhms_decreasing) as (_ & _ & Hhigh).
  split.
  - apply Hlow. vm_compute. reflexivity.
  - apply Hhigh. vm_compute. reflexivity.
Defined.

(** The number the interpolation computes can be -9999 itself: on this
    strictly decreasing table the reading 512 gives 10000 ohms, above every
    entry; the loop breaks at index 3 and [map] plus [TEMP_OFFSET] is
    [(10000 - 5039.5) / (5039 - 5039.5) + 2 - 80 = -9999]. *)
Example interpolation_can_equal_sentinel :
  strictly_decreasing coincidence_TempToOhms /\
  table_valid coincidence_TempToOhms /\
  (pgm_read_float coincidence_TempToOhms 1 <? ohms_of_reading 512)%f32 = true /\
  scan_index coincidence_TempToOhms (Z.to_nat (END - (START + 1))) (START + 1)
             (ohms_of_reading 512) = Some 3%Z /\
  readThermistorValue coincidence_TempToOhms (fun _ => 512%Z) A0 = F32.of_int (-9999).
Proof.
  split; [apply strictly_decreasingb_spec; vm_compute; reflexivity|].
  split; [apply table_validb_spec; vm_compute; reflexivity|].
  repeat split; vm_compute; reflexivity.
Qed.

(** ** Differences of binary32 numbers *)

Module F32Round.

Lemma fexp32_eq (z : Z) : F32.fexp32 z = Z.max (z - 24) (-149).
Proof. reflexivity. Qed.

Lemma digits2_pos_bounds (m : positive) :
(2 ^ (Zpos (digits2_pos m) - 1) <= Zpos m < 2 ^ Zpos (digits2_pos m))%Z.
Proof.
induction m as [m IH|m IH|]; cbn [digits2_pos].
- rewrite Pos2Z.inj_succ, Z.pow_succ_r by lia.
  replace (Z.succ (Zpos (digits2_pos m)) - 1)%Z
    with (Z.succ (Zpos (digits2_pos m) - 1))%Z by lia.
  rewrite Z.pow_succ_r by lia. lia.
- rewrite Pos2Z.inj_succ, Z.pow_succ_r by lia.
  replace (Z.succ (Zpos (digits2_pos m)) - 1)%Z
    with (Z.succ (Zpos (digits2_pos m) - 1))%Z by lia.
  rewrite Z.pow_succ_r by lia. lia.
- cbn. lia.
Qed.

Lemma iter_xO_value (m d : positive) :
Zpos (Pos.iter xO m d) = (Zpos m * 2 ^ Zpos d)%Z.
Proof.
induction d as [|d IH] using Pos.peano_ind.
- cbn. lia.
- rewrite Pos.iter_succ, Pos2Z.inj_xO, IH, Pos2Z.inj_succ, Z.pow_succ_r by lia.
  lia.
Qed.

Lemma shl_align_value (m : positive) (e e' : Z) :
(e' <= e)%Z ->
Zpos (fst (shl_align m e e')) = (Zpos m * 2 ^ (e - e'))%Z.
Proof.
intros H. unfold shl_align. destruct (e' - e)%Z as [|p|p] eqn:E.
- replace (e - e')%Z with 0%Z by lia. cbn [fst]. lia.
- lia.
- cbn [fst]. rewrite iter_xO_value. f_equal. f_equal. lia.
Qed.

Lemma shr_1_m (mrs : shr_record) :
(0 <= shr_m mrs)%Z ->
shr_m (shr_1 mrs) = (shr_m mrs / 2)%Z.
Proof.
destruct mrs as [m r s]. cbn [shr_m]. intros H.
rewrite <- Z.div2_div.
destruct m as [|[p|p|]|p]; try reflexivity; lia.
Qed.

Lemma pow2_xO (p : positive) : (2 ^ Zpos p~0 = 2 ^ Zpos p * 2 ^ Zpos p)%Z.
Proof.
replace (Zpos p~0) with (Zpos p + Zpos p)%Z by lia.
apply Z.pow_add_r; lia.
Qed.

Lemma pow2_xI (p : positive) : (2 ^ Zpos p~1 = 2 * (2 ^ Zpos p * 2 ^ Zpos p))%Z.
Proof.
replace (Zpos p~1) with (1 + (Zpos p + Zpos p))%Z by lia.
rewrite !Z.pow_add_r by lia. reflexivity.
Qed.

Lemma pow2_pos (z : Z) : (0 <= z)%Z -> (0 < 2 ^ z)%Z.
Proof. intros H. apply Z.pow_pos_nonneg; lia. Qed.

Lemma iter_shr_1_m (p : positive) (mrs : shr_record) :
(0 <= shr_m mrs)%Z ->
shr_m (iter_pos shr_1 p mrs) = (shr_m mrs / 2 ^ Zpos p)%Z.
Proof.
revert mrs. induction p as [p IH|p IH|]; intros mrs H; cbn [iter_pos].
- pose proof (pow2_pos (Zpos p) ltac:(lia)) as Hp.
  assert (H1 : (0 <= shr_m (shr_1 mrs))%Z)
    by (rewrite shr_1_m by exact H; apply Z.div_pos; lia).
  assert (H2 : (0 <= shr_m (iter_pos shr_1 p (shr_1 mrs)))%Z)
    by (rewrite IH by exact H1; apply Z.div_pos; lia).
  rewrite IH, IH, shr_1_m by assumption.
  rewrite !Z.div_div by lia.
  rewrite pow2_xI. f_equal; lia.
- pose proof (pow2_pos (Zpos p) ltac:(lia)) as Hp.
  assert (H2 : (0 <= shr_m (iter_pos shr_1 p mrs))%Z)
    by (rewrite IH by exact H; apply Z.div_pos; lia).
  rewrite IH, IH by assumption.
  rewrite !Z.div_div by lia.
  rewrite pow2_xO. reflexivity.
- rewrite shr_1_m by exact H. reflexivity.
Qed.

Lemma shr_record_of_loc_m (m : Z) (l : location) :
shr_m (shr_record_of_loc m l) = m.
Proof. destruct l as [|[| |]]; reflexivity. Qed.

(** Shifting a positive mantissa to the format's exponent leaves it
  positive, when the exponent is not below the smallest one. *)
Lemma shr_fexp_pos (m e : Z) (l : location) :
(0 < m)%Z -> (-149 <= e)%Z ->
(0 < shr_m (fst (shr_fexp F32.prec F32.emax m e l)))%Z /\
(-149 <= snd (shr_fexp F32.prec F32.emax m e l))%Z.
Proof.
intros Hm He. unfold shr_fexp, shr.
change (fexp F32.prec F32.emax) with F32.fexp32. rewrite fexp32_eq.
destruct m as [|p|p]; try lia. cbn [Zdigits2].
pose proof (digits2_pos_bounds p) as [Hlo _].
destruct (Z.max (Zpos (digits2_pos p) + e - 24) (-149) - e)%Z as [|n|n] eqn:E;
  cbn [fst snd]; rewrite ?shr_record_of_loc_m; try (split; lia).
split; [|lia].
rewrite iter_shr_1_m by (rewrite shr_record_of_loc_m; lia).
rewrite shr_record_of_loc_m.
apply Z.div_str_pos. split; [apply pow2_pos; lia|].
apply Z.le_trans with (2 := Hlo).
apply Z.pow_le_mono_r; lia.
Qed.

Lemma round_nearest_even_pos (m : Z) (l : location) :
(0 < m)%Z -> (0 < round_nearest_even m l)%Z.
Proof.
intros H. destruct l as [|[| |]]; cbn [round_nearest_even]; try lia.
destruct (Z.even m); lia.
Qed.

Lemma binary_round_aux_nonzero (s : bool) (m e : Z) (l : location) :
(0 < m)%Z -> (-149 <= e)%Z ->
F32.nonzero_number (binary_round_aux F32.prec F32.emax s m e l) = true.
Proof.
intros Hm He. unfold binary_round_aux.
pose proof (shr_fexp_pos m e l Hm He) as [H1 H2].
destruct (shr_fexp F32.prec F32.emax m e l) as [mrs1 e1]. cbn [fst snd] in H1, H2.
pose proof (shr_fexp_pos _ e1 loc_Exact
              (round_nearest_even_pos _ (loc_of_shr_record mrs1) H1) H2)
  as [H3 _].
destruct (shr_fexp F32.prec F32.emax
            (round_nearest_even (shr_m mrs1) (loc_of_shr_record mrs1)) e1 loc_Exact)
  as [mrs2 e2]. cbn [fst] in H3.
destruct (shr_m mrs2) as [|p|p]; try lia.
destruct (e2 <=? F32.emax - F32.prec)%Z; reflexivity.
Qed.

Lemma binary_round_nonzero (s : bool) (m : positive) (e : Z) :
(-149 <= e)%Z ->
F32.nonzero_number (binary_round F32.prec F32.emax s m e) = true.
Proof.
intros He. unfold binary_round.
change (fexp F32.prec F32.emax) with F32.fexp32. rewrite fexp32_eq.
unfold shl_align.
destruct (Z.max (Zpos (digits2_pos m) + e - 24) (-149) - e)%Z;
  apply binary_round_aux_nonzero; lia.
Qed.

Lemma binary_normalize_nonzero (m e : Z) (szero : bool) :
m <> 0%Z -> (-149 <= e)%Z ->
F32.nonzero_number (binary_normalize F32.prec F32.emax m e szero) = true.
Proof.
intros Hm He. destruct m as [|p|p]; [contradiction| |];
  apply binary_round_nonzero; exact He.
Qed.

(** What canonical form says of a mantissa and its exponent. *)
Lemma valid_finite (s : bool) (m : positive) (e : Z) :
F32.valid (S754_finite s m e) = true ->
(-149 <= e)%Z /\ (Zpos m < 2 ^ 24)%Z /\
((-149 < e)%Z -> (2 ^ 23 <= Zpos m)%Z).
Proof.
unfold F32.valid, valid_binary, bounded, canonical_mantissa.
change (fexp F32.prec F32.emax) with F32.fexp32. rewrite fexp32_eq.
intros H. apply andb_true_iff in H. destruct H as [H _].
apply Z.eqb_eq in H.
pose proof (digits2_pos_bounds m) as [Hlo Hhi].
assert (Hd : (Zpos (digits2_pos m) <= 24)%Z) by lia.
split; [lia|]. split.
- apply Z.lt_le_trans with (1 := Hhi). apply Z.pow_le_mono_r; lia.
- intros He. replace (Zpos (digits2_pos m)) with 24%Z in Hlo by lia.
  exact Hlo.
Qed.

Lemma pow2_ge_2 (z : Z) : (1 <= z)%Z -> (2 <= 2 ^ z)%Z.
Proof.
intros H. change 2%Z with (2 ^ 1)%Z at 1. apply Z.pow_le_mono_r; lia.
Qed.

(** The difference of two distinct canonical numbers is not rounded to
  zero: binary32 underflows gradually. *)
Lemma sub_finite_nonzero (sy sx : bool) (my mx : positive) (ey ex : Z) :
F32.valid (S754_finite sy my ey) = true ->
F32.valid (S754_finite sx mx ex) = true ->
F32.ltb (S754_finite sy my ey) (S754_finite sx mx ex) = true ->
F32.nonzero_number (F32.sub (S754_finite sy my ey) (S754_finite sx mx ex)) = true.
Proof.
intros Vy Vx Hlt.
apply valid_finite in Vy. destruct Vy as (Ey & Uy & Ly).
apply valid_finite in Vx. destruct Vx as (Ex & Ux & Lx).
apply F32Facts.ltb_finite_spec in Hlt.
unfold F32.sub, SFsub. apply binary_normalize_nonzero; [|lia].
rewrite !shl_align_value by lia.
change (2 ^ 24)%Z with 16777216%Z in *. change (2 ^ 23)%Z with 8388608%Z in *.
destruct (Z.lt_trichotomy ey ex) as [H|[H|H]].
- rewrite Z.min_l by lia. rewrite Z.sub_diag, Z.pow_0_r, Z.mul_1_r.
  pose proof (pow2_ge_2 (ex - ey) ltac:(lia)) as P.
  specialize (Lx ltac:(lia)).
  assert (B : (16777216 <= Zpos mx * 2 ^ (ex - ey))%Z) by nia.
  destruct sy, sx; cbn [cond_Zopp]; lia.
- subst ex. rewrite Z.min_id, Z.sub_diag, Z.pow_0_r, !Z.mul_1_r.
  destruct sy, sx; cbn [cond_Zopp]; try contradiction; lia.
- rewrite Z.min_r by lia. rewrite Z.sub_diag, Z.pow_0_r, Z.mul_1_r.
  pose proof (pow2_ge_2 (ey - ex) ltac:(lia)) as P.
  specialize (Ly ltac:(lia)).
  assert (B : (16777216 <= Zpos my * 2 ^ (ey - ex))%Z) by nia.
  destruct sy, sx; cbn [cond_Zopp]; lia.
Qed.

Lemma sub_lt_nonzero (x y : F32.float) :
F32.valid x = true -> F32.valid y = true -> F32.ltb y x = true ->
F32.nonzero_number (F32.sub y x) = true.
Proof.
destruct y as [sy|sy| |sy my ey], x as [sx|sx| |sx mx ex];
  try (intros _ _; destruct sy; try destruct sx; cbn; intros H;
       first [discriminate H | reflexivity]);
  try (intros _ _; destruct sx; cbn; intros H;
       first [discriminate H | reflexivity]);
  try (intros _ _; cbn; intros H; first [discriminate H | reflexivity]).
intros Vx Vy. apply sub_finite_nonzero; assumption.
Qed.

(** A number minus itself is the positive zero. *)
Lemma sub_self (x : F32.float) :
match x with S754_zero _ | S754_finite _ _ _ => True | _ => False end ->
F32.sub x x = S754_zero false.
Proof.
intros Hx. destruct x as [s|s| |s m e]; try contradiction.
- destruct s; reflexivity.
- unfold F32.sub, SFsub. rewrite Z.sub_diag. reflexivity.
Qed.

(** Zero over a number that is not zero is zero. *)
Lemma div_zero (s : bool) (d : F32.float) :
F32.nonzero_number d = true ->
exists s', F32.div (S754_zero s) d = S754_zero s'.
Proof.
destruct d as [sd|sd| |sd md ed]; try discriminate; intros _; cbn;
  eexists; reflexivity.
Qed.

End F32Round.

(** ** Inputs at the entries of the table *)

Lemma same_eq (x y : F32.float) : F32.same x y = true -> x = y.
Proof.
  destruct x as [a|a| |a m e], y as [b|b| |b n f]; cbn; try discriminate;
    try reflexivity.
  - intros H. apply Bool.eqb_prop in H. congruence.
  - intros H. apply Bool.eqb_prop in H. congruence.
  - intros H. apply andb_true_iff in H. destruct H as [H He].
    apply andb_true_iff in H. destruct H as [Hs Hm].
    apply Bool.eqb_prop in Hs. apply Pos.eqb_eq in Hm. apply Z.eqb_eq in He.
    congruence.
Qed.

(** The index arithmetic of the interpolation is exact for every index the
    loop can stop at: the two output bounds differ by one, and a zero
    offset from the lower bound gives the index below, to which
    [TEMP_OFFSET] is added without rounding. *)
Lemma index_arithmetic_exact (j : Z) :
  (START + 1 <= j < END)%Z ->
  (S754_zero false * (F32.of_int j - (F32.of_int j - F32.of_int 1)))%f32
    = S754_zero false /\
  forall s : bool,
    (S754_zero s + (F32.of_int j - F32.of_int 1) + F32.of_int TEMP_OFFSET)%f32
    = F32.of_int (j - 1 + TEMP_OFFSET).
Proof.
  intros Hj.
  pose (P := fun z : Z =>
    F32.same (S754_zero false * (F32.of_int z - (F32.of_int z - F32.of_int 1)))%f32
             (S754_zero false)
    && forallb (fun s =>
         F32.same (S754_zero s + (F32.of_int z - F32.of_int 1)
                   + F32.of_int TEMP_OFFSET)%f32
                  (F32.of_int (z - 1 + TEMP_OFFSET)))
         [true; false]).
  assert (H : P j = true).
  { apply (Zrange_forallb P 3 377).
    - vm_compute. reflexivity.
    - unfold START, END in Hj. lia. }
  unfold P in H. clear P.
  apply andb_true_iff in H. destruct H as [H1 H2].
  split; [apply same_eq, H1|].
  intros s. apply same_eq. rewrite forallb_forall in H2. apply H2.
  destruct s; cbn; auto.
Qed.

(** An entry strictly between two others is neither infinite nor a NaN. *)
Lemma between_finite (y x z : F32.float) :
  F32.ltb y x = true -> F32.ltb x z = true ->
  match x with S754_zero _ | S754_finite _ _ _ => True | _ => False end.
Proof.
  destruct x as [s|s| |s m e]; try exact (fun _ _ => I).
  - destruct s, y as [a|a| |a n f], z as [b|b| |b k g]; cbn; intros H1 H2;
      try discriminate H1; try discriminate H2;
      try (destruct a; discriminate H1); try (destruct b; discriminate H2).
  - destruct y; cbn; discriminate.
Qed.

(** C7, as stated, fails: an input equal to the last entry of the sample
    table, index 379, gets the sentinel and not 379 - 80 = 299. *)
Lemma last_entry_gets_sentinel :
  strictly_decreasing sample_TempToOhms /\
  resistanceToTemperature sample_TempToOhms (pgm_read_float sample_TempToOhms 379)
    = F32.of_int (-9999) /\
  resistanceToTemperature sample_TempToOhms (pgm_read_float sample_TempToOhms 379)
    <> F32.of_int (379 + TEMP_OFFSET).
Proof.
  split; [exact sample_TempToOhms_decreasing|].
  split; [vm_compute; reflexivity | vm_compute; discriminate].
Qed.

(** C7, amended: on a strictly decreasing table of canonical numbers, an
    input equal to the entry at an index [i] from 2 to 378 is converted to
    exactly [i + TEMP_OFFSET], and an input equal to the last entry, index
    379, to the sentinel. *)
Theorem exact_at_table_entries (TempToOhms : list F32.float) (i : Z) :
  strictly_decreasing TempToOhms ->
  table_valid TempToOhms ->
  ((START <= i <= END - 2)%Z ->
   resistanceToTemperature TempToOhms (pgm_read_float TempToOhms i)
     = F32.of_int (i + TEMP_OFFSET)) /\
  resistanceToTemperature TempToOhms (pgm_read_float TempToOhms (END - 1))
    = F32.of_int (-9999).
Proof.
  intros Hdec Hval. unfold resistanceToTemperature. split.
  - intros Hi. assert (Hi' : (2 <= i <= 378)%Z) by (unfold START, END in Hi; lia).
    rewrite scan_scan_index, (scan_index_at _ _ _ (i + 1)).
    + replace (i + 1 - 1)%Z with i by lia. unfold map.
      rewrite F32Round.sub_self.
      * destruct (index_arithmetic_exact (i + 1)) as [E1 E2];
          [unfold START, END; lia|].
        rewrite E1.
        destruct (F32Round.div_zero false
                    (pgm_read_float TempToOhms (i + 1) - pgm_read_float TempToOhms i)%f32)
          as [s' Hs'].
        { apply F32Round.sub_lt_nonzero.
          - apply Hval. unfold END. lia.
          - apply Hval. unfold END. lia.
          - apply Hdec; unfold END; lia. }
        rewrite Hs', E2. f_equal. lia.
      * apply between_finite with (y := pgm_read_float TempToOhms (i + 1))
                                  (z := pgm_read_float TempToOhms (i - 1)).
        -- apply Hdec; unfold END; lia.
        -- replace i with (i - 1 + 1)%Z at 1 by lia. apply Hdec; unfold END; lia.
    + unfold START, END. lia.
    + intros k Hk. apply decreasing_not_lt; try assumption;
        unfold START, END in *; lia.
    + apply Hdec; unfold END; lia.
  - rewrite scan_scan_index, scan_index_none; [reflexivity|].
    intros k Hk. apply decreasing_not_lt; try assumption;
      unfold START, END in *; lia.
Qed.

Lemma exact_at_table_entries_witness :
  resistanceToTemperature sample_TempToOhms (pgm_read_float sample_TempToOhms 105)
    = F32.of_int 25.
Proof.
  apply (exact_at_table_entries sample_TempToOhms 105
           sample_TempToOhms_decreasing sample_TempToOhms_valid).
  unfold START, END. lia.
Defined.

(** The entries below [START] are outside the amended statement: an input
    equal to the entry at index 1 of the sample table is extrapolated from
    the entries 2 and 3, a little off -79. *)
Example entry_one_extrapolated :
  resistanceToTemperature sample_TempToOhms (pgm_read_float sample_TempToOhms 1)
    = S754_finite true 10355019 (-17) /\
  F32.of_int (1 + TEMP_OFFSET) = S754_finite true 10354688 (-17).
Proof. split; vm_compute; reflexivity. Qed.

(** ** The record format *)

Lemma string_length_append (s t : string) :
  String.length (s ++ t) = (String.length s + String.length t)%nat.
Proof. induction s as [|c s IH]; cbn; [reflexivity | rewrite IH; reflexivity]. Qed.

Lemma substring_whole (n : nat) (s : string) :
  (String.length s <= n)%nat -> substring 0 n s = s.
Proof.
  revert n. induction s as [|c s IH]; intros n H.
  - destruct n; reflexivity.
  - destruct n as [|n]; cbn in *; [lia|]. rewrite IH by lia. reflexivity.
Qed.

Lemma snprintf_fits (size : nat) (fmt : string) (args : list Z) :
  (String.length (format in_text fmt args) < size)%nat ->
  snprintf size fmt args = format in_text fmt args.
Proof. intros H. apply substring_whole. lia. Qed.

Lemma fill_length (c : ascii) (k : nat) (s : string) :
  String.length (fill c k s) = (k + String.length s)%nat.
Proof. induction k as [|k IH]; cbn; [reflexivity | rewrite IH; reflexivity]. Qed.

(** [%02d] of a number below one hundred is its two digits. *)
Lemma format_d_two_digits (n : Z) :
  (0 <= n < 100)%Z -> format_d true 2 n = two_digits n.
Proof.
  intros H. apply String.eqb_eq.
  apply (Zrange_forallb (fun z => String.eqb (format_d true 2 z) (two_digits z)) 0 100).
  - vm_compute. reflexivity.
  - lia.
Qed.

(** [%d] is the sign and the digits. *)
Lemma format_d_plain (n : Z) : format_d false 0 n = signed_decimal n.
Proof. reflexivity. Qed.

(** [%3d] pads the sign and the digits with blanks to three columns. *)
Lemma format_d_width3 (n : Z) :
  format_d false 3 n =
  fill " "%char (3 - String.length (signed_decimal n)) (signed_decimal n).
Proof.
  unfold format_d, signed_decimal. rewrite string_length_append. reflexivity.
Qed.

Lemma signed_decimal_length (q : Z) :
  (-328 <= q <= 328)%Z -> (String.length (signed_decimal q) <= 4)%nat.
Proof.
  intros H. apply Nat.leb_le.
  apply (Zrange_forallb (fun z => (String.length (signed_decimal z) <=? 4)%nat)
                        (-328) 657).
  - vm_compute. reflexivity.
  - lia.
Qed.

Lemma decimal_length (a : Z) :
  (0 <= a <= 99)%Z -> (String.length (decimal a) <= 2)%nat.
Proof.
  intros H. apply Nat.leb_le.
  apply (Zrange_forallb (fun z => (String.length (decimal z) <=? 2)%nat) 0 100).
  - vm_compute. reflexivity.
  - lia.
Qed.

(** The fractional field has no sign: its text is that of a natural
    number below one hundred. *)
Lemma fraction_unsigned (v : Z) :
  signed_decimal (Z.abs (Z.rem v 100)) = decimal (Z.abs (Z.rem v 100)) /\
  (0 <= Z.abs (Z.rem v 100) <= 99)%Z.
Proof.
  assert (H : (Z.abs (Z.rem v 100) < Z.abs 100)%Z)
    by (apply Z.rem_bound_abs; discriminate).
  split; [|lia].
  unfold signed_decimal.
  destruct (Z.ltb_spec (Z.abs (Z.rem v 100)) 0); [lia | reflexivity].
Qed.

Lemma int_quot_range (v : Z) :
  int_range v -> (-328 <= Z.quot v 100 <= 328)%Z.
Proof.
  unfold int_range. intros H.
  pose proof (Z.quot_rem' v 100) as E.
  assert (R : (Z.abs (Z.rem v 100) < Z.abs 100)%Z)
    by (apply Z.rem_bound_abs; discriminate).
  lia.
Qed.

Lemma append_empty (s : string) : s ++ "" = s.
Proof. induction s as [|c s IH]; cbn; [reflexivity | rewrite IH; reflexivity]. Qed.

Lemma format_record (a1 a2 a3 a4 a5 a6 a7 a8 a9 : Z) :
  format in_text "%02d:%02d:%02d,%d.%d,%d.%d,%d.%d"
         [a1; a2; a3; a4; a5; a6; a7; a8; a9] =
  format_d true 2 a1 ++ ":" ++ format_d true 2 a2 ++ ":" ++ format_d true 2 a3
  ++ "," ++ format_d false 0 a4 ++ "." ++ format_d false 0 a5
  ++ "," ++ format_d false 0 a6 ++ "." ++ format_d false 0 a7
  ++ "," ++ format_d false 0 a8 ++ "." ++ format_d false 0 a9.
Proof.
  transitivity
    (format_d true 2 a1 ++ ":" ++ format_d true 2 a2 ++ ":" ++ format_d true 2 a3
     ++ "," ++ format_d false 0 a4 ++ "." ++ format_d false 0 a5
     ++ "," ++ format_d false 0 a6 ++ "." ++ format_d false 0 a7
     ++ "," ++ format_d false 0 a8 ++ "." ++ format_d false 0 a9 ++ "").
  - reflexivity.
  - rewrite append_empty. reflexivity.
Qed.

Lemma format_record_variant (a1 a2 a3 a4 a5 a6 a7 a8 a9 : Z) :
  format in_text "%02d:%02d:%02d,%3d.%dC,%3d.%dC,%3d.%dC"
         [a1; a2; a3; a4; a5; a6; a7; a8; a9] =
  format_d true 2 a1 ++ ":" ++ format_d true 2 a2 ++ ":" ++ format_d true 2 a3
  ++ "," ++ format_d false 3 a4 ++ "." ++ format_d false 0 a5 ++ "C"
  ++ "," ++ format_d false 3 a6 ++ "." ++ format_d false 0 a7 ++ "C"
  ++ "," ++ format_d false 3 a8 ++ "." ++ format_d false 0 a9 ++ "C".
Proof. reflexivity. Qed.

Lemma append_assoc (s t u : string) : (s ++ t) ++ u = s ++ (t ++ u).
Proof. induction s as [|c s IH]; cbn; [reflexivity | rewrite IH; reflexivity]. Qed.

(** C8: for every time of day and every three [int] values in hundredths,
    the record is the hour, minute and second as two zero-padded digits
    each, and for each value [v] the integer part [v / 100] (truncated
    toward zero), a dot and the unsigned fraction [abs (v % 100)]; the
    second firmware variant renders the same parts, the integer part
    padded to three columns and followed by the unit. *)
Theorem record_line_format (timeNow : DateTime) (v1 v2 v3 : Z) :
  valid_time timeNow -> int_range v1 -> int_range v2 -> int_range v3 ->
  record_line timeNow v1 v2 v3 =
    two_digits (hour timeNow) ++ ":" ++ two_digits (minute timeNow) ++ ":"
    ++ two_digits (second timeNow)
    ++ "," ++ hundredths v1 ++ "," ++ hundredths v2 ++ "," ++ hundredths v3
  /\
  record_line_variant timeNow v1 v2 v3 =
    two_digits (hour timeNow) ++ ":" ++ two_digits (minute timeNow) ++ ":"
    ++ two_digits (second timeNow)
    ++ "," ++ hundredths_variant v1 ++ "," ++ hundredths_variant v2
    ++ "," ++ hundredths_variant v3.
Proof.
  intros (Hh & Hm & Hs) H1 H2 H3.
  apply int_quot_range, signed_decimal_length in H1, H2, H3.
  destruct (fraction_unsigned v1) as [F1 B1].
  destruct (fraction_unsigned v2) as [F2 B2].
  destruct (fraction_unsigned v3) as [F3 B3].
  pose proof (decimal_length _ B1) as L1.
  pose proof (decimal_length _ B2) as L2.
  pose proof (decimal_length _ B3) as L3.
  assert (Hfmt : forall v, format_d false 0 (Z.abs (Z.rem v 100))
                           = decimal (Z.abs (Z.rem v 100))).
  { intros v. rewrite format_d_plain. apply fraction_unsigned. }
  unfold record_line, record_line_variant. split.
  - rewrite snprintf_fits; rewrite format_record, !format_d_two_digits,
      !Hfmt, (format_d_plain (Z.quot v1 100)), (format_d_plain (Z.quot v2 100)),
      (format_d_plain (Z.quot v3 100)) by lia.
    + unfold hundredths. rewrite !append_assoc. reflexivity.
    + rewrite !string_length_append. cbn [String.length two_digits].
      unfold LINE_LEN. lia.
  - rewrite snprintf_fits; rewrite format_record_variant, !format_d_two_digits,
      !Hfmt, !format_d_width3 by lia.
    + unfold hundredths_variant. rewrite !append_assoc. reflexivity.
    + rewrite !string_length_append, !fill_length.
      cbn [String.length two_digits]. unfold LINE_LEN. lia.
Qed.

Lemma record_line_format_witness :
  record_line sample_now 2345 (-530) 10000 = "14:05:09,23.45,-5.30,100.0" /\
  record_line_variant sample_now 2345 (-530) 10000
    = "14:05:09, 23.45C, -5.30C,100.0C".
Proof.
  destruct (record_line_format sample_now 2345 (-530) 10000) as [E1 E2];
    try (unfold int_range; lia).
  - unfold valid_time, sample_now; cbn; lia.
  - rewrite E1, E2. split; vm_compute; reflexivity.
Defined.

(** The sign of a value between -1 and 0 is lost, and a fraction below ten
    hundredths is printed as one digit. *)
Example record_line_small_values :
  record_line sample_now (-537) 2305 (-37) = "14:05:09,-5.37,23.5,0.37".
Proof. vm_compute. reflexivity. Qed.

(** ** The logging session controller *)

(** Unfolds the controller on a state given by its fields, leaving the
    converter alone. *)
Ltac run_controller :=
  cbv [loop logData logData_variant startLog stopLog logIsr bind ret emit get
       set_triggered set_logging set_myFile state_of trace_of fst snd app
       _triggered _logging _myFile session toggled negb
       transitions filter is_transition List.length serial_output firstn].

(** Finds an event in a trace given event by event. *)
Ltac find_event := first [left; reflexivity | right; find_event].

(** Settles what a trace given event by event prints to a handle. *)
Ltac logged_record :=
  repeat split; intros;
  repeat match goal with
         | H : _ /\ _ |- _ => destruct H
         | H : _ \/ _ |- _ => destruct H
         | H : exists _, _ |- _ => destruct H
         | H : False |- _ => contradiction
         | H : File_println _ _ = File_println _ _ |- _ =>
             injection H; clear H; intros; subst
         end;
  try discriminate; try tauto; try reflexivity; try congruence;
  try (eexists; find_event).

Lemma logIsr_state (st : State) :
  state_of (logIsr st) = mkState true (_logging st) (_myFile st).
Proof. destruct st as [t [|] f]; reflexivity. Qed.

Lemma presses_state (n : nat) (st : State) :
  state_of (presses (S n) st) = mkState true (_logging st) (_myFile st).
Proof.
  revert st. induction n as [|n IH]; intros st.
  - destruct st as [t [|] f]; reflexivity.
  - change (presses (S (S n))) with (bind logIsr (fun _ => presses (S n))).
    unfold bind.
    pose proof (logIsr_state st) as E. unfold state_of in E.
    destruct (logIsr st) as [[u s1] t1]. cbn in E. subst s1.
    specialize (IH (mkState true (_logging st) (_myFile st))).
    unfold state_of in IH.
    destruct (presses (S n) (mkState true (_logging st) (_myFile st)))
      as [[u2 s2] t2].
    cbn in IH |- *. exact IH.
Qed.

(** The name of the stream: the day, a [T], the hour and the minute, two
    digits each. *)
Lemma log_name_format (now : DateTime) :
  valid_day now -> valid_time now ->
  log_name now =
  two_digits (day now) ++ "T" ++ two_digits (hour now)
  ++ two_digits (minute now) ++ ".csv".
Proof.
  intros Hd (Hh & Hm & _). unfold valid_day in Hd. unfold log_name.
  rewrite snprintf_fits.
  - change (format in_text "%02dT%02d%02d.csv" [day now; hour now; minute now])
      with (format_d true 2 (day now) ++ "T" ++ format_d true 2 (hour now)
            ++ format_d true 2 (minute now) ++ ".csv").
    rewrite !format_d_two_digits by lia. reflexivity.
  - change (format in_text "%02dT%02d%02d.csv" [day now; hour now; minute now])
      with (format_d true 2 (day now) ++ "T" ++ format_d true 2 (hour now)
            ++ format_d true 2 (minute now) ++ ".csv").
    rewrite !format_d_two_digits by lia.
    rewrite !string_length_append. cbn. unfold LINE_LEN. lia.
Qed.



(** C4, as stated, fails: with a card that refuses to open the file, the
    toggle leaves the session active and the diagnostic output has no
    report of the failure. *)
Lemma failed_open_stays_active :
  let w := sample_world 512 false in
  let st := mkState true false no_file in
  let r := loop sample_TempToOhms sample_float_to_int w st in
  session st = Inactive /\
  SD_open_result w (log_name (rtc_now w)) = no_file /\
  session (state_of r) = Active /\
  session (state_of r) <> Inactive /\
  serial_output (trace_of r) =
    [ "Recording started: "; "21T1405.csv"; "14:05:09,219.0,219.0,219.0" ].
Proof.
  cbv zeta. repeat split; try (vm_compute; reflexivity).
  vm_compute. discriminate.
Qed.

(** C4, amended: when the stream cannot be opened on the toggle from
    [Inactive], the controller stays [Active] with the invalid handle; the
    diagnostic output of the cycle is the start notification and the
    record, and the record is written to the invalid handle. *)
Theorem failed_open_unchecked
    (TempToOhms : list F32.float) (float_to_int : F32.float -> Z)
    (w : World) (st : State) :
  _triggered st = true ->
  session st = Inactive ->
  SD_open_result w (log_name (rtc_now w)) = no_file ->
  let r := loop TempToOhms float_to_int w st in
  let line := cycle_record TempToOhms float_to_int w in
  session (state_of r) = Active /\
  _myFile (state_of r) = no_file /\
  serial_output (trace_of r) =
    [ "Recording started: "; log_name (rtc_now w); line ] /\
  In (File_println no_file line) (trace_of r).
Proof.
  destruct st as [t lg f]. unfold session. cbn [_triggered _logging].
  intros -> Hlg Hopen. destruct lg; [discriminate|].
  run_controller. rewrite Hopen. unfold cycle_record.
  repeat split. cbn [In]. tauto.
Qed.

Lemma failed_open_unchecked_witness :
  session (state_of (loop sample_TempToOhms sample_float_to_int
                          (sample_world 512 false)
                          (mkState true false no_file))) = Active.
Proof.
  apply (failed_open_unchecked sample_TempToOhms sample_float_to_int
           (sample_world 512 false) (mkState true false no_file));
    reflexivity.
Defined.

(** C5: any number [N >= 1] of presses before a cycle makes that cycle
    take exactly one transition, and leaves nothing pending; a cycle
    without a pending toggle takes none. *)
Theorem presses_coalesce
    (TempToOhms : list F32.float) (float_to_int : F32.float -> Z)
    (w : World) (st : State) (N : nat) :
  (1 <= N)%nat ->
  let pressed := state_of (presses N st) in
  let r := loop TempToOhms float_to_int w pressed in
  (_triggered pressed = true /\
   session (state_of r) = toggled (session st) /\
   transitions (trace_of r) = 1%nat /\
   _triggered (state_of r) = false) /\
  (forall (w' : World) (st' : State),
     _triggered st' = false ->
     let r' := loop TempToOhms float_to_int w' st' in
     session (state_of r') = session st' /\
     transitions (trace_of r') = 0%nat /\
     _triggered (state_of r') = false).
Proof.
  intros HN. destruct N as [|n]; [lia|]. cbv zeta.
  rewrite presses_state. split.
  - destruct st as [t lg f]. cbn [_logging _myFile].
    destruct lg; run_controller; repeat split.
  - intros w' [t lg f]. cbn [_triggered]. intros ->.
    destruct lg; run_controller; repeat split.
Qed.

Lemma presses_coalesce_witness :
  transitions (trace_of (loop sample_TempToOhms sample_float_to_int
                              (sample_world 512 true)
                              (state_of (presses 3 idle_state)))) = 1%nat.
Proof.
  apply (presses_coalesce sample_TempToOhms sample_float_to_int
           (sample_world 512 true) idle_state 3).
  lia.
Defined.

(** C6, as stated, fails: the session can be active with no open stream,
    and then the record of the cycle is appended to nothing. In the main
    firmware this is the cycle whose [SD.open] fails, and every cycle
    after it; in the second variant, whose [_logging] starts [true], it
    is every cycle from the start to the first press, whatever the card
    does. *)
Lemma active_without_stream_appends_nothing :
  let w := sample_world 512 false in
  let r := loop sample_TempToOhms sample_float_to_int w (mkState true false no_file) in
  let line := cycle_record sample_TempToOhms sample_float_to_int w in
  let w' := sample_world 512 true in
  let r' := Part000.loop sample_TempToOhms sample_float_to_int w' Part000.initial_state in
  let line' := Part000.cycle_record sample_TempToOhms sample_float_to_int w' in
  (session (state_of r) = Active /\
   In (Serial_println line) (trace_of r) /\
   (forall name l, ~ In (File_println (file name) l) (trace_of r)) /\
   ~ (appended line (trace_of r) <-> session (state_of r) = Active)) /\
  (session (state_of r') = Active /\
   In (Serial_println line') (trace_of r') /\
   (forall name l, ~ In (File_println (file name) l) (trace_of r')) /\
   ~ (appended line' (trace_of r') <-> session (state_of r') = Active)).
Proof.
  cbv zeta.
  assert (H : forall name l,
            ~ In (File_println (file name) l)
                (trace_of (loop sample_TempToOhms sample_float_to_int
                             (sample_world 512 false) (mkState true false no_file)))).
  { intros name l. vm_compute. intros H.
    repeat match goal with H : _ \/ _ |- _ => destruct H end;
      try discriminate; contradiction. }
  assert (H' : forall name l,
            ~ In (File_println (file name) l)
                (trace_of (Part000.loop sample_TempToOhms sample_float_to_int
                             (sample_world 512 true) Part000.initial_state))).
  { intros name l. vm_compute. intros H0.
    repeat match goal with H : _ \/ _ |- _ => destruct H end;
      try discriminate; contradiction. }
  split; (split; [reflexivity|]); (split; [vm_compute; tauto|]).
  - split; [exact H|]. intros [_ Happ].
    destruct (Happ eq_refl) as [name Hin]. exact (H _ _ Hin).
  - split; [exact H'|]. intros [_ Happ].
    destruct (Happ eq_refl) as [name Hin]. exact (H' _ _ Hin).
Qed.

(** C6, amended: [logData], in both firmware variants, always prints the
    record on the diagnostic output and prints it to the handle [_myFile]
    exactly when the session is active; the record is appended to an open
    stream exactly when the session is active and the handle is valid.
    So does every cycle of both variants, for the session and the handle
    that the cycle has after the toggle was looked at. Nothing else is
    printed to a handle. *)
Theorem record_echoed_and_appended_when_open
    (TempToOhms : list F32.float) (float_to_int : F32.float -> Z) (w : World) :
  (forall (v1 v2 v3 : Z) (st : State),
     let r := logData w v1 v2 v3 st in
     let line := record_line (rtc_now w) v1 v2 v3 in
     state_of r = st /\
     In (Serial_println line) (trace_of r) /\
     (In (File_println (_myFile st) line) (trace_of r) <-> session st = Active) /\
     (appended line (trace_of r)
      <-> session st = Active /\ is_valid (_myFile st) = true) /\
     (forall f l, In (File_println f l) (trace_of r) ->
                  session st = Active /\ f = _myFile st /\ l = line)) /\
  (forall (v1 v2 v3 : Z) (st : State),
     let r := logData_variant w v1 v2 v3 st in
     let line := record_line_variant (rtc_now w) v1 v2 v3 in
     state_of r = st /\
     In (Serial_println line) (trace_of r) /\
     (In (File_println (_myFile st) line) (trace_of r) <-> session st = Active) /\
     (appended line (trace_of r)
      <-> session st = Active /\ is_valid (_myFile st) = true) /\
     (forall f l, In (File_println f l) (trace_of r) ->
                  session st = Active /\ f = _myFile st /\ l = line)) /\
  (forall st : State,
     let r := loop TempToOhms float_to_int w st in
     let line := cycle_record TempToOhms float_to_int w in
     In (Serial_println line) (trace_of r) /\
     (In (File_println (_myFile (state_of r)) line) (trace_of r)
      <-> session (state_of r) = Active) /\
     (appended line (trace_of r)
      <-> session (state_of r) = Active /\ is_valid (_myFile (state_of r)) = true) /\
     (forall f l, In (File_println f l) (trace_of r) ->
                  session (state_of r) = Active /\ f = _myFile (state_of r)
                  /\ l = line)) /\
  (forall st : State,
     let r := Part000.loop TempToOhms float_to_int w st in
     let line := Part000.cycle_record TempToOhms float_to_int w in
     In (Serial_println line) (trace_of r) /\
     (In (File_println (_myFile (state_of r)) line) (trace_of r)
      <-> session (state_of r) = Active) /\
     (appended line (trace_of r)
      <-> session (state_of r) = Active /\ is_valid (_myFile (state_of r)) = true) /\
     (forall f l, In (File_println f l) (trace_of r) ->
                  session (state_of r) = Active /\ f = _myFile (state_of r)
                  /\ l = line)).
Proof.
  split; [|split; [|split]].
  - intros v1 v2 v3 [t lg f]. unfold appended.
    destruct lg, f as [|n]; run_controller; cbn [In is_valid]; logged_record.
  - intros v1 v2 v3 [t lg f]. unfold appended.
    destruct lg, f as [|n]; run_controller; cbn [In is_valid]; logged_record.
  - intros [t lg f]. unfold cycle_record, appended.
    destruct t, lg; run_controller;
      [ | destruct (SD_open_result w (log_name (rtc_now w))) as [|n]
        | destruct f as [|n] | ];
      cbn [In is_valid]; logged_record.
  - intros [t lg f]. unfold Part000.cycle_record, appended.
    destruct t, lg;
      cbv [Part000.loop Part000.startLog logData_variant stopLog bind ret emit
           get set_triggered set_logging set_myFile state_of trace_of fst snd
           app _triggered _logging _myFile session];
      [ | destruct (SD_open_result w (Part000.log_name (rtc_now w))) as [|n]
        | destruct f as [|n] | ];
      cbn [In is_valid]; logged_record.
Qed.

Lemma record_echoed_and_appended_when_open_witness :
  appended (cycle_record sample_TempToOhms sample_float_to_int (sample_world 512 true))
     (trace_of (loop sample_TempToOhms sample_float_to_int
                     (sample_world 512 true)
                     (mkState false true (file "21T1405.csv")))).
Proof.
  destruct (record_echoed_and_appended_when_open
              sample_TempToOhms sample_float_to_int (sample_world 512 true))
    as (_ & _ & Hloop & _).
  destruct (Hloop (mkState false true (file "21T1405.csv"))) as (_ & _ & Happ & _).
  apply Happ. split; reflexivity.
Defined.

(** * Further properties of the sketch *)

(** ** Sequencing *)

Lemma bind_state {A B : Type} (c : M A) (k : A -> M B) (s : State) :
  state_of (bind c k s) = state_of (k (fst (fst (c s))) (state_of (c s))).
Proof.
  unfold bind, state_of. destruct (c s) as [[a s1] t1]. cbn [fst snd].
  destruct (k a s1) as [[b s2] t2]. reflexivity.
Qed.

Lemma bind_trace {A B : Type} (c : M A) (k : A -> M B) (s : State) :
  trace_of (bind c k s) =
  (trace_of (c s) ++ trace_of (k (fst (fst (c s))) (state_of (c s))))%list.
Proof.
  unfold bind, state_of, trace_of. destruct (c s) as [[a s1] t1]. cbn [fst snd].
  destruct (k a s1) as [[b s2] t2]. reflexivity.
Qed.

Lemma track_app (cur : option File) (t1 t2 : list Event) :
  track cur (t1 ++ t2) =
  match track cur t1 with
  | Some c => track c t2
  | None => None
  end.
Proof.
  revert cur. induction t1 as [|e t1 IH]; intros cur; [reflexivity|].
  destruct e; cbn [app track]; try apply IH.
  - destruct cur; [reflexivity | apply IH].
  - destruct cur as [g|]; [|reflexivity]. destruct (File_eqb f g); [apply IH | reflexivity].
  - destruct cur as [g|]; [|reflexivity]. destruct (File_eqb f g); [apply IH | reflexivity].
Qed.

Lemma transitions_app (t1 t2 : list Event) :
  transitions (t1 ++ t2) = (transitions t1 + transitions t2)%nat.
Proof. unfold transitions. rewrite filter_app, length_app. reflexivity. Qed.

Lemma File_eqb_refl (f : File) : File_eqb f f = true.
Proof. destruct f; [reflexivity | apply String.eqb_refl]. Qed.

(** The handler touches neither the stream nor the session. *)
Lemma logIsr_quiet (st : State) (cur : option File) :
  track cur (trace_of (logIsr st)) = Some cur /\
  transitions (trace_of (logIsr st)) = 0%nat.
Proof. destruct st as [t [|] f]; split; reflexivity. Qed.

Lemma presses_quiet (n : nat) (st : State) (cur : option File) :
  track cur (trace_of (presses n st)) = Some cur /\
  transitions (trace_of (presses n st)) = 0%nat.
Proof.
  revert st. induction n as [|n IH]; intros st; [split; reflexivity|].
  change (presses (S n)) with (bind logIsr (fun _ => presses n)).
  rewrite bind_trace, track_app, transitions_app.
  destruct (logIsr_quiet st cur) as [H1 H2]. rewrite H1, H2.
  apply IH.
Qed.

Lemma presses_globals (n : nat) (st : State) :
  state_of (presses n st) =
  mkState (_triggered st || negb (Nat.eqb n 0)) (_logging st) (_myFile st).
Proof.
  destruct n as [|n].
  - destruct st as [t lg f]. cbn. rewrite orb_false_r. reflexivity.
  - rewrite presses_state. cbn. rewrite orb_true_r. reflexivity.
Qed.

(** One cycle keeps the trace and the globals in step. *)
Lemma loop_tracks
    (TempToOhms : list F32.float) (float_to_int : F32.float -> Z)
    (w : World) (st : State) :
  let r := loop TempToOhms float_to_int w st in
  track (open_stream st) (trace_of r) = Some (open_stream (state_of r)) /\
  _triggered (state_of r) = false /\
  ((_logging st = false -> _myFile st = no_file) ->
   (_logging (state_of r) = false -> _myFile (state_of r) = no_file)) /\
  transitions (trace_of r) = (if _triggered st then 1 else 0)%nat /\
  session (state_of r) =
    (if _triggered st then toggled (session st) else session st).
Proof.
  destruct st as [t lg f]. unfold open_stream.
  destruct t, lg; run_controller; cbn [track]; rewrite ?File_eqb_refl;
    repeat split; auto; intros; discriminate.
Qed.

(** ** Runs of several cycles *)

Lemma run_cons
    (TempToOhms : list F32.float) (float_to_int : F32.float -> Z)
    (n : nat) (w : World) (rest : list Cycle) (st : State) :
  let st1 := state_of (presses n st) in
  let st2 := state_of (loop TempToOhms float_to_int w st1) in
  state_of (run TempToOhms float_to_int ((n, w) :: rest) st)
    = state_of (run TempToOhms float_to_int rest st2) /\
  trace_of (run TempToOhms float_to_int ((n, w) :: rest) st)
    = (trace_of (presses n st)
       ++ trace_of (loop TempToOhms float_to_int w st1)
       ++ trace_of (run TempToOhms float_to_int rest st2))%list.
Proof.
  cbv zeta. cbn [run]. rewrite !bind_state, !bind_trace. split; reflexivity.
Qed.






Lemma pressed_cycles_cons (n : nat) (w : World) (rest : list Cycle) :
  pressed_cycles ((n, w) :: rest) =
  ((if Nat.eqb n 0 then 0 else 1) + pressed_cycles rest)%nat.
Proof. unfold pressed_cycles. cbn. destruct (Nat.eqb n 0); reflexivity. Qed.

Lemma run_counts
    (TempToOhms : list F32.float) (float_to_int : F32.float -> Z)
    (cycles : list Cycle) (st : State) :
  _triggered st = false ->
  let r := run TempToOhms float_to_int cycles st in
  transitions (trace_of r) = pressed_cycles cycles /\
  session (state_of r) =
    (if Nat.even (pressed_cycles cycles) then session st else toggled (session st)) /\
  _triggered (state_of r) = false.
Proof.
  revert st. induction cycles as [|[n w] rest IH]; intros st Hst.
  - repeat split. exact Hst.
  - cbv zeta. destruct (run_cons TempToOhms float_to_int n w rest st) as [Es Et].
    cbv zeta in Es, Et. unfold Cycle in *. rewrite Es, Et. clear Es Et.
    rewrite !transitions_app.
    destruct (presses_quiet n st None) as [_ Hq]. rewrite Hq.
    pose proof (presses_globals n st) as Hg. rewrite Hst in Hg. cbn [orb] in Hg.
    rewrite !Hg.
    destruct (loop_tracks TempToOhms float_to_int w
                (mkState (negb (Nat.eqb n 0)) (_logging st) (_myFile st)))
      as (_ & Htrig & _ & Hn & Hs).
    cbn [_triggered] in Hn, Hs.
    destruct (IH _ Htrig) as (IH1 & IH2 & IH3).
    rewrite IH1, IH2, Hn, Hs, pressed_cycles_cons.
    assert (Esess : session (mkState (negb (Nat.eqb n 0)) (_logging st) (_myFile st))
                    = session st) by reflexivity.
    rewrite Esess. clear - IH3.
    split; [|split; [|exact IH3]].
    + destruct (Nat.eqb n 0); reflexivity.
    + destruct (Nat.eqb n 0); cbn [negb Nat.add]; [reflexivity|].
      rewrite Nat.even_succ, <- Nat.negb_even.
      destruct (Nat.even (pressed_cycles rest)), (session st); reflexivity.
Qed.

(** X2: a run from the initial globals takes exactly one transition for
    every cycle that at least one press precedes, whatever the number of
    presses, and ends active exactly when the number of such cycles is
    odd. *)
Theorem run_one_transition_per_pressed_cycle
    (TempToOhms : list F32.float) (float_to_int : F32.float -> Z)
    (cycles : list Cycle) :
  let r := run TempToOhms float_to_int cycles initial_state in
  transitions (trace_of r) = pressed_cycles cycles /\
  (session (state_of r) = Active <-> Nat.odd (pressed_cycles cycles) = true).
Proof.
  cbv zeta.
  destruct (run_counts TempToOhms float_to_int cycles initial_state eq_refl)
    as (H1 & H2 & _).
  split; [exact H1|]. rewrite H2, <- Nat.negb_even.
  destruct (Nat.even (pressed_cycles cycles)); cbn; split; intros H;
    try discriminate; reflexivity.
Qed.

(** ** The length of a cycle *)

Ltac run_variant :=
  cbv [Part000.loop Part000.startLog Part000.logIsr logData_variant stopLog
       bind ret emit get set_triggered set_logging set_myFile state_of trace_of
       fst snd app _triggered _logging _myFile session toggled negb
       transitions filter is_transition is_open existsb List.length
       serial_output firstn total_delay].

(** X3: the delays of one cycle of the main firmware add up to
    [LOG_INTERVAL] plus 200 ms, and to 100 ms more when the record is
    written to the stream; those of the second variant add up to
    [LOG_INTERVAL] plus 200 ms. *)
Theorem cycle_delays
    (TempToOhms : list F32.float) (float_to_int : F32.float -> Z)
    (w : World) (st : State) :
  let r := loop TempToOhms float_to_int w st in
  total_delay (trace_of r) =
    (LOG_INTERVAL + 200 + (if _logging (state_of r) then 100 else 0))%Z /\
  total_delay (trace_of (Part000.loop TempToOhms float_to_int w st)) =
    (LOG_INTERVAL + 200)%Z.
Proof.
  destruct st as [t lg f]. split.
  - destruct t, lg; run_controller; reflexivity.
  - destruct t, lg; run_variant; reflexivity.
Qed.

(** ** Start-up *)

Lemma errorBlink_default (fuel : nat) (code : Z) :
  errorBlink fuel code false = boot_ret tt.
Proof. destruct fuel; reflexivity. Qed.

Lemma errorBlink_while_default (fuel : nat) (code : Z) :
  Part000.errorBlink_while fuel code false = boot_ret tt.
Proof. destruct fuel; reflexivity. Qed.

(** X4: [setup] always runs to its end, whatever the clock and the card
    answer: it reports a missing clock or card on the diagnostic output,
    sets the clock exactly when the clock says it is not initialised,
    never blinks the LED, and goes on to print "Initialization done" and
    attach the handler; the main firmware leaves no toggle pending and the
    session and handle as they were. *)
Theorem setup_never_halts (fuel : nat) (hw : Hardware) (st : State) :
  let r := setup fuel hw st in
  let r' := Part000.setup fuel hw st in
  (returned r = true /\
   boot_state r = mkState false (_logging st) (_myFile st) /\
   printed "Couldn't find RTC" (boot_trace r) = negb (rtc_found hw) /\
   printed "SD card initialization failed!" (boot_trace r) = negb (SD_found hw CS) /\
   existsb is_clock_adjust (boot_trace r) = negb (rtc_initialized hw) /\
   existsb (is_led_write LOW) (boot_trace r) = false /\
   printed "Initialization done" (boot_trace r) = true /\
   existsb is_attach (boot_trace r) = true) /\
  (returned r' = true /\
   boot_state r' = st /\
   printed "Couldn't find RTC" (boot_trace r') = negb (rtc_found hw) /\
   printed "SD card initialization failed!" (boot_trace r') = negb (SD_found hw CS) /\
   existsb is_clock_adjust (boot_trace r') = negb (rtc_initialized hw) /\
   existsb (is_led_write HIGH) (boot_trace r') = false /\
   printed "Initialization done" (boot_trace r') = true /\
   existsb is_attach (boot_trace r') = true).
Proof.
  cbv zeta. unfold setup, Part000.setup, Part000.errorBlink.
  rewrite !errorBlink_default, !errorBlink_while_default.
  destruct st as [t lg f].
  destruct (rtc_found hw), (rtc_initialized hw), (SD_found hw CS);
    split; repeat split; vm_compute; reflexivity.
Qed.

Lemma boot_bind_run {A B : Type} (c : Boot A) (k : A -> Boot B) (s : State) (a : A) :
  fst (fst (c s)) = Some a ->
  boot_bind c k s =
  (fst (fst (k a (boot_state (c s)))),
   boot_state (k a (boot_state (c s))),
   (boot_trace (c s) ++ boot_trace (k a (boot_state (c s))))%list).
Proof.
  unfold boot_bind, boot_state, boot_trace.
  destruct (c s) as [[oa s1] t1]. cbn [fst snd]. intros ->.
  destruct (k a s1) as [[ob s2] t2]. reflexivity.
Qed.

Lemma count_events_app (p : BootEvent -> bool) (t1 t2 : list BootEvent) :
  count_events p (t1 ++ t2) = (count_events p t1 + count_events p t2)%nat.
Proof. unfold count_events. rewrite filter_app, length_app. reflexivity. Qed.

Lemma count_events_cons (p : BootEvent -> bool) (e : BootEvent) (t : list BootEvent) :
  count_events p (e :: t) = ((if p e then 1 else 0) + count_events p t)%nat.
Proof. unfold count_events. cbn [filter]. destruct (p e); reflexivity. Qed.

(** The [for] loop returns after [count] pulses. *)
Lemma errorBlink_for_run (count : nat) (st : State) :
  fst (fst (errorBlink_for count st)) = Some tt /\
  boot_state (errorBlink_for count st) = st /\
  count_events (is_led_write LOW) (boot_trace (errorBlink_for count st)) = count /\
  count_events (is_led_write HIGH) (boot_trace (errorBlink_for count st)) = count /\
  count_events is_pause (boot_trace (errorBlink_for count st)) = 0%nat.
Proof.
  induction count as [|count IH]; [repeat split|].
  destruct IH as (H1 & H2 & H3 & H4 & H5).
  unfold boot_state, boot_trace in *. cbn [errorBlink_for].
  cbv [boot_bind boot_emit].
  destruct (errorBlink_for count st) as [[oa s1] t1]. cbn [fst snd] in *.
  subst oa s1. cbn [fst snd app]. rewrite !count_events_cons, H3, H4, H5.
  repeat split.
Qed.

Lemma variant_errorBlink_for_run (count : nat) (st : State) :
  fst (fst (Part000.errorBlink_for count st)) = Some tt /\
  boot_state (Part000.errorBlink_for count st) = st /\
  count_events (is_led_write HIGH) (boot_trace (Part000.errorBlink_for count st)) = count /\
  count_events (is_led_write LOW) (boot_trace (Part000.errorBlink_for count st)) = count /\
  count_events is_pause (boot_trace (Part000.errorBlink_for count st)) = 0%nat.
Proof.
  induction count as [|count IH]; [repeat split|].
  destruct IH as (H1 & H2 & H3 & H4 & H5).
  unfold boot_state, boot_trace in *. cbn [Part000.errorBlink_for].
  cbv [boot_bind boot_emit].
  destruct (Part000.errorBlink_for count st) as [[oa s1] t1]. cbn [fst snd] in *.
  subst oa s1. cbn [fst snd app]. rewrite !count_events_cons, H3, H4, H5.
  repeat split.
Qed.

(** X5: [errorBlink] returns at once and does nothing to the LED when
    [blocking] is false; when it is true it has not returned after any
    number of rounds, each round being [code] pulses of the LED and a
    pause of two seconds. *)
Theorem errorBlink_blocks_forever (fuel : nat) (code : Z) (st : State) :
  (errorBlink fuel code false st = (Some tt, st, []) /\
   Part000.errorBlink fuel code false st = (Some tt, st, [pinMode Part000.LED OUTPUT])) /\
  (returned (errorBlink fuel code true st) = false /\
   boot_state (errorBlink fuel code true st) = st /\
   count_events is_pause (boot_trace (errorBlink fuel code true st)) = fuel /\
   count_events (is_led_write LOW) (boot_trace (errorBlink fuel code true st))
     = (fuel * Z.to_nat code)%nat) /\
  (returned (Part000.errorBlink fuel code true st) = false /\
   boot_state (Part000.errorBlink fuel code true st) = st /\
   count_events is_pause (boot_trace (Part000.errorBlink fuel code true st)) = fuel /\
   count_events (is_led_write HIGH) (boot_trace (Part000.errorBlink fuel code true st))
     = (fuel * Z.to_nat code)%nat).
Proof.
  split; [|split].
  - unfold Part000.errorBlink.
    rewrite errorBlink_default, errorBlink_while_default. split; reflexivity.
  - induction fuel as [|fuel IH]; [repeat split|].
    destruct IH as (H1 & H2 & H3 & H4).
    destruct (errorBlink_for_run (Z.to_nat code) st) as (F1 & F2 & F3 & _ & F5).
    cbn [errorBlink].
    rewrite (boot_bind_run _ _ st tt F1), F2.
    unfold returned, boot_state, boot_trace in *. cbn [fst snd].
    cbv [boot_bind boot_emit].
    destruct (errorBlink fuel code true st) as [[oa s1] t1]. cbn [fst snd] in *.
    rewrite !count_events_app, F3, F5, H3, H4. cbn.
    repeat split; try assumption; lia.
  - unfold Part000.errorBlink.
    assert (H : returned (Part000.errorBlink_while fuel code true st) = false /\
                boot_state (Part000.errorBlink_while fuel code true st) = st /\
                count_events is_pause
                  (boot_trace (Part000.errorBlink_while fuel code true st)) = fuel /\
                count_events (is_led_write HIGH)
                  (boot_trace (Part000.errorBlink_while fuel code true st))
                = (fuel * Z.to_nat code)%nat).
    { induction fuel as [|fuel IH]; [repeat split|].
      destruct IH as (H1 & H2 & H3 & H4).
      destruct (variant_errorBlink_for_run (Z.to_nat code) st)
        as (F1 & F2 & F3 & _ & F5).
      cbn [Part000.errorBlink_while].
      rewrite (boot_bind_run _ _ st tt F1), F2.
      unfold returned, boot_state, boot_trace in *. cbn [fst snd].
      cbv [boot_bind boot_emit].
      destruct (Part000.errorBlink_while fuel code true st) as [[oa s1] t1].
      cbn [fst snd] in *.
      rewrite !count_events_app, F3, F5, H3, H4. cbn.
      repeat split; try assumption; lia. }
    destruct H as (H1 & H2 & H3 & H4).
    unfold returned, boot_state, boot_trace, boot_bind in *. cbn [boot_emit].
    destruct (Part000.errorBlink_while fuel code true st) as [[oa s1] t1].
    cbn [fst snd] in *. destruct oa; [discriminate|].
    cbn. repeat split; assumption.
Qed.

(** ** The second firmware variant *)

Lemma variant_presses_state (n : nat) (st : State) :
  state_of (Part000.presses (S n) st) = mkState true (_logging st) (_myFile st).
Proof.
  revert st. induction n as [|n IH]; intros st; [reflexivity|].
  change (Part000.presses (S (S n)))
    with (bind Part000.logIsr (fun _ => Part000.presses (S n))).
  rewrite bind_state. rewrite IH. reflexivity.
Qed.

(** X6: the second variant starts with the session active and no stream.
    Until the first press every cycle prints its record to the invalid
    handle and changes nothing; the cycle after the first presses stops
    the session and closes the invalid handle, no file having been opened,
    so that its trace breaks the discipline of [track]. *)
Theorem variant_starts_active_without_stream
    (TempToOhms : list F32.float) (float_to_int : F32.float -> Z) (w : World) :
  (let r := Part000.loop TempToOhms float_to_int w Part000.initial_state in
   state_of r = Part000.initial_state /\
   In (File_println no_file (Part000.cycle_record TempToOhms float_to_int w))
      (trace_of r) /\
   existsb is_open (trace_of r) = false /\
   track None (trace_of r) = None) /\
  (forall n : nat, (1 <= n)%nat ->
   let r := Part000.loop TempToOhms float_to_int w
              (state_of (Part000.presses n Part000.initial_state)) in
   session (state_of r) = Inactive /\
   firstn 2 (trace_of r) = [File_close no_file; Serial_println "Recording stopped"] /\
   existsb is_open (trace_of r) = false /\
   track None (trace_of r) = None).
Proof.
  split.
  - unfold Part000.initial_state, Part000.cycle_record. run_variant.
    repeat split. cbn [In]. tauto.
  - intros n Hn. destruct n as [|n]; [lia|]. cbv zeta.
    rewrite variant_presses_state. unfold Part000.initial_state.
    cbn [_logging _myFile]. run_variant. repeat split.
Qed.

Lemma variant_starts_active_without_stream_witness :
  session (state_of (Part000.loop sample_TempToOhms sample_float_to_int
                       (sample_world 512 true)
                       (state_of (Part000.presses 2%nat Part000.initial_state))))
  = Inactive.
Proof.
  apply (proj2 (variant_starts_active_without_stream
                  sample_TempToOhms sample_float_to_int (sample_world 512 true)) 2%nat).
  lia.
Defined.

(** ** Names and records *)

Lemma digit_round_trip (k : Z) :
  (0 <= k <= 9)%Z -> digit_value (digit_char k) = Some (Z.to_nat k).
Proof.
  intros H.
  pose (P := fun z : Z => match digit_value (digit_char z) with
                          | Some x => Nat.eqb x (Z.to_nat z)
                          | None => false
                          end).
  assert (E : P k = true)
    by (apply (Zrange_forallb P 0 10); [vm_compute; reflexivity | lia]).
  unfold P in E. clear P. destruct (digit_value (digit_char k)) as [x|]; [|discriminate].
  apply Nat.eqb_eq in E. congruence.
Qed.

Lemma read_two_digits_round_trip (n : Z) (rest : string) :
  (0 <= n < 100)%Z -> read_two_digits (two_digits n ++ rest) = Some n.
Proof.
  intros H. unfold two_digits. cbn [append read_two_digits].
  pose proof (Z.div_mod n 10 ltac:(lia)) as Hdm.
  pose proof (Z.mod_pos_bound n 10 ltac:(lia)) as Hmb.
  assert (H1 : (0 <= n / 10 <= 9)%Z) by lia.
  assert (H2 : (0 <= n mod 10 <= 9)%Z) by lia.
  rewrite !digit_round_trip by assumption.
  f_equal. rewrite !Z2Nat.id by lia. lia.
Qed.

Lemma variant_log_name_format (now : DateTime) :
  valid_month now -> valid_day now -> valid_time now ->
  Part000.log_name now =
  two_digits (month now) ++ "-" ++ two_digits (day now) ++ "T"
  ++ two_digits (hour now) ++ "-" ++ two_digits (minute now) ++ ".txt".
Proof.
  intros Hmo Hd (Hh & Hm & _). unfold valid_month in Hmo. unfold valid_day in Hd.
  unfold Part000.log_name.
  assert (E : format in_text "%02d-%02dT%02d-%02d.txt"
                [month now; day now; hour now; minute now] =
              two_digits (month now) ++ "-" ++ two_digits (day now) ++ "T"
              ++ two_digits (hour now) ++ "-" ++ two_digits (minute now) ++ ".txt").
  { change (format in_text "%02d-%02dT%02d-%02d.txt"
              [month now; day now; hour now; minute now])
      with (format_d true 2 (month now) ++ "-" ++ format_d true 2 (day now) ++ "T"
            ++ format_d true 2 (hour now) ++ "-" ++ format_d true 2 (minute now)
            ++ ".txt").
    rewrite !format_d_two_digits by lia. reflexivity. }
  rewrite snprintf_fits; rewrite E; [reflexivity|].
  rewrite !string_length_append. cbn. unfold LINE_LEN. lia.
Qed.

(** X8: the name of a log file is read back to the day, hour and minute it
    was made from (and to the month as well in the second variant), and
    it depends on nothing else: two starts of the main firmware get the
    same name exactly when their day of month, hour and minute agree. *)
Theorem log_name_round_trip (a b : DateTime) :
  valid_month a -> valid_day a -> valid_time a ->
  valid_month b -> valid_day b -> valid_time b ->
  read_log_name (log_name a) = Some (day a, hour a, minute a) /\
  read_log_name_variant (Part000.log_name a)
    = Some (month a, day a, hour a, minute a) /\
  (log_name a = log_name b <->
   day a = day b /\ hour a = hour b /\ minute a = minute b) /\
  (Part000.log_name a = Part000.log_name b <->
   month a = month b /\ day a = day b /\ hour a = hour b /\ minute a = minute b).
Proof.
  intros Hmoa Hda Hta Hmob Hdb Htb.
  assert (R : forall t, valid_day t -> valid_time t ->
                read_log_name (log_name t) = Some (day t, hour t, minute t)).
  { intros t Hd Ht. rewrite log_name_format by assumption.
    destruct Ht as (Hh & Hm & _). unfold valid_day in Hd.
    unfold read_log_name.
    pose proof (read_two_digits_round_trip (day t) "" ltac:(lia)) as E1.
    pose proof (read_two_digits_round_trip (hour t) "" ltac:(lia)) as E2.
    pose proof (read_two_digits_round_trip (minute t) "" ltac:(lia)) as E3.
    unfold two_digits in *. cbn [append substring] in *.
    rewrite E1, E2, E3. reflexivity. }
  assert (R' : forall t, valid_month t -> valid_day t -> valid_time t ->
                 read_log_name_variant (Part000.log_name t)
                 = Some (month t, day t, hour t, minute t)).
  { intros t Hmo Hd Ht. rewrite variant_log_name_format by assumption.
    destruct Ht as (Hh & Hm & _). unfold valid_day in Hd. unfold valid_month in Hmo.
    unfold read_log_name_variant.
    pose proof (read_two_digits_round_trip (month t) "" ltac:(lia)) as E0.
    pose proof (read_two_digits_round_trip (day t) "" ltac:(lia)) as E1.
    pose proof (read_two_digits_round_trip (hour t) "" ltac:(lia)) as E2.
    pose proof (read_two_digits_round_trip (minute t) "" ltac:(lia)) as E3.
    unfold two_digits in *. cbn [append substring] in *.
    rewrite E0, E1, E2, E3. reflexivity. }
  split; [apply R; assumption|]. split; [apply R'; assumption|]. split.
  - split.
    + intros E. pose proof (R a Hda Hta) as Ea. rewrite E, (R b Hdb Htb) in Ea.
      injection Ea as -> -> ->. auto.
    + intros (E1 & E2 & E3). unfold log_name. rewrite E1, E2, E3. reflexivity.
  - split.
    + intros E. pose proof (R' a Hmoa Hda Hta) as Ea.
      rewrite E, (R' b Hmob Hdb Htb) in Ea.
      injection Ea as -> -> -> ->. auto.
    + intros (E0 & E1 & E2 & E3). unfold Part000.log_name.
      rewrite E0, E1, E2, E3. reflexivity.
Qed.

Lemma log_name_round_trip_witness :
  read_log_name (log_name sample_now) = Some (21, 14, 5)%Z /\
  log_name sample_now = log_name (mkDateTime 9 21 14 5 30).
Proof.
  assert (V : valid_month sample_now /\ valid_day sample_now /\ valid_time sample_now)
    by (unfold valid_month, valid_day, valid_time, sample_now; cbn; lia).
  assert (V' : valid_month (mkDateTime 9 21 14 5 30)
               /\ valid_day (mkDateTime 9 21 14 5 30)
               /\ valid_time (mkDateTime 9 21 14 5 30))
    by (unfold valid_month, valid_day, valid_time; cbn; lia).
  destruct V as (V1 & V2 & V3). destruct V' as (W1 & W2 & W3).
  destruct (log_name_round_trip sample_now (mkDateTime 9 21 14 5 30)
              V1 V2 V3 W1 W2 W3) as (H1 & _ & H3 & _).
  split; [exact H1|]. apply H3. repeat split.
Defined.

(** X9: a value between -99 and 99 hundredths is recorded without its
    sign: the record of [v] is the record of [abs v]. *)
Theorem record_drops_sign_below_one (t : DateTime) (v1 v2 v3 : Z) :
  (-99 <= v1 <= 99)%Z -> (-99 <= v2 <= 99)%Z -> (-99 <= v3 <= 99)%Z ->
  record_line t v1 v2 v3 = record_line t (Z.abs v1) (Z.abs v2) (Z.abs v3) /\
  record_line_variant t v1 v2 v3
    = record_line_variant t (Z.abs v1) (Z.abs v2) (Z.abs v3).
Proof.
  assert (Q : forall v, (-99 <= v <= 99)%Z ->
                Z.quot v 100 = Z.quot (Z.abs v) 100 /\
                Z.abs (Z.rem v 100) = Z.abs (Z.rem (Z.abs v) 100)).
  { intros v Hv. destruct (Z.abs_spec v) as [[Hs ->]|[Hs ->]]; [split; reflexivity|].
    rewrite Z.quot_opp_l, Z.rem_opp_l by discriminate.
    assert (E : Z.quot v 100 = 0%Z).
    { replace v with (- (- v))%Z by lia.
      rewrite Z.quot_opp_l by discriminate. rewrite Z.quot_small by lia. reflexivity. }
    rewrite E, Z.abs_opp. split; reflexivity. }
  intros H1 H2 H3. unfold record_line, record_line_variant.
  destruct (Q v1 H1) as [<- <-]. destruct (Q v2 H2) as [<- <-].
  destruct (Q v3 H3) as [<- <-]. split; reflexivity.
Qed.

Lemma record_drops_sign_below_one_witness :
  record_line sample_now (-37) (-5) 99
  = record_line sample_now (Z.abs (-37)) (Z.abs (-5)) (Z.abs 99).
Proof.
  destruct (record_drops_sign_below_one sample_now (-37) (-5) 99) as [H _];
    [lia | lia | lia | exact H].
Defined.

(** The text of a record of the main firmware, for a time of day and
    values of an [int]. *)
Lemma record_line_text (timeNow : DateTime) (v1 v2 v3 : Z) :
  valid_time timeNow -> int_range v1 -> int_range v2 -> int_range v3 ->
  record_line timeNow v1 v2 v3 =
    two_digits (hour timeNow) ++ ":" ++ two_digits (minute timeNow) ++ ":"
    ++ two_digits (second timeNow)
    ++ "," ++ hundredths v1 ++ "," ++ hundredths v2 ++ "," ++ hundredths v3.
Proof.
  intros (Hh & Hm & Hs) H1 H2 H3.
  apply int_quot_range, signed_decimal_length in H1, H2, H3.
  destruct (fraction_unsigned v1) as [F1 B1].
  destruct (fraction_unsigned v2) as [F2 B2].
  destruct (fraction_unsigned v3) as [F3 B3].
  pose proof (decimal_length _ B1) as L1.
  pose proof (decimal_length _ B2) as L2.
  pose proof (decimal_length _ B3) as L3.
  assert (Hfmt : forall v, format_d false 0 (Z.abs (Z.rem v 100))
                           = decimal (Z.abs (Z.rem v 100))).
  { intros v. rewrite format_d_plain. apply fraction_unsigned. }
  unfold record_line.
  rewrite snprintf_fits; rewrite format_record, !format_d_two_digits,
    !Hfmt, (format_d_plain (Z.quot v1 100)), (format_d_plain (Z.quot v2 100)),
    (format_d_plain (Z.quot v3 100)) by lia.
  - unfold hundredths. rewrite !append_assoc. reflexivity.
  - rewrite !string_length_append. cbn [String.length two_digits].
    unfold LINE_LEN. lia.
Qed.

Lemma decimal_single_digit (d : Z) :
  (0 <= d <= 9)%Z -> decimal d = String (digit_char d) EmptyString.
Proof.
  intros H. apply String.eqb_eq.
  pose (P := fun z : Z => String.eqb (decimal z) (String (digit_char z) EmptyString)).
  change (P d = true).
  apply (Zrange_forallb P 0 10); [vm_compute; reflexivity | lia].
Qed.

(** X10: a fraction below ten hundredths is recorded as a single digit,
    without a leading zero: [q] degrees and [d] hundredths, [d] from 0 to
    9, are recorded as [q.d], the text that reads as [d] tenths. *)
Theorem record_fraction_single_digit (t : DateTime) (q d v2 v3 : Z) :
  valid_time t -> (0 <= q <= 327)%Z -> (0 <= d <= 9)%Z ->
  int_range v2 -> int_range v3 ->
  record_line t (100 * q + d) v2 v3 =
    two_digits (hour t) ++ ":" ++ two_digits (minute t) ++ ":"
    ++ two_digits (second t)
    ++ "," ++ (decimal q ++ "." ++ String (digit_char d) EmptyString)
    ++ "," ++ hundredths v2 ++ "," ++ hundredths v3.
Proof.
  intros Ht Hq Hd H2 H3.
  rewrite record_line_text; try assumption; [|unfold int_range; lia].
  assert (Eq : Z.quot (100 * q + d) 100 = q).
  { rewrite Z.quot_div_nonneg by lia. symmetry.
    apply (Z.div_unique (100 * q + d) 100 q d); lia. }
  assert (Er : Z.rem (100 * q + d) 100 = d).
  { rewrite Z.rem_mod_nonneg by lia. symmetry.
    apply (Z.mod_unique (100 * q + d) 100 q d); lia. }
  unfold hundredths at 1. rewrite Eq, Er, Z.abs_eq by lia.
  rewrite decimal_single_digit by assumption.
  unfold signed_decimal. destruct (Z.ltb_spec q 0); [lia|]. reflexivity.
Qed.

Lemma record_fraction_single_digit_witness :
  record_line sample_now (100 * 23 + 5) 0 0 = "14:05:09,23.5,0.0,0.0".
Proof.
  rewrite (record_fraction_single_digit sample_now 23 5 0 0);
    try (unfold int_range; lia).
  - vm_compute. reflexivity.
  - unfold valid_time, sample_now; cbn; lia.
Defined.

(** ** The interpolation *)

Lemma sub_same (a : F32.float) :
  (a - a)%f32 = S754_zero false \/ (a - a)%f32 = S754_nan.
Proof.
  destruct a as [s|s| |s m e].
  - left. destruct s; reflexivity.
  - right. destruct s; reflexivity.
  - right. reflexivity.
  - left. apply F32Round.sub_self. exact I.
Qed.

(** X11: [map] with equal input bounds divides by zero: whatever the other
    arguments, its result is a NaN or an infinity, never a number. *)
Theorem map_equal_bounds_not_finite (x a out_min out_max : F32.float) :
  not_finite (map x a a out_min out_max) = true.
Proof.
  unfold map.
  assert (D : not_finite ((x - a) * (out_max - out_min) / (a - a))%f32 = true).
  { destruct (sub_same a) as [-> | ->].
    - destruct ((x - a) * (out_max - out_min))%f32 as [s|s| |s m e];
        try destruct s; reflexivity.
    - destruct ((x - a) * (out_max - out_min))%f32 as [s|s| |s m e];
        reflexivity. }
  destruct ((x - a) * (out_max - out_min) / (a - a))%f32 as [s|s| |s m e];
    try discriminate D.
  - destruct s, out_min as [s'|s'| |s' m' e']; try destruct s'; reflexivity.
  - destruct out_min as [s'|s'| |s' m' e']; reflexivity.
Qed.

(** ** Readings, ohms and table indices *)

Lemma increasing_chain (f : Z -> F32.float) (lo hi : Z) :
  (forall z, (lo <= z < hi)%Z -> (f z <? f (z + 1)%Z)%f32 = true) ->
  forall a b, (lo <= a)%Z -> (a < b)%Z -> (b <= hi)%Z -> (f a <? f b)%f32 = true.
Proof.
  intros Hadj a b Ha Hab Hb.
  assert (H : forall n : nat, (a + 1 + Z.of_nat n <= hi)%Z ->
              (f a <? f (a + 1 + Z.of_nat n)%Z)%f32 = true).
  { induction n as [|n IH]; intros Hn.
    - replace (a + 1 + Z.of_nat 0)%Z with (a + 1)%Z by lia. apply Hadj. lia.
    - apply F32Facts.ltb_trans with (y := f (a + 1 + Z.of_nat n)).
      + apply IH. lia.
      + replace (a + 1 + Z.of_nat (S n))%Z with (a + 1 + Z.of_nat n + 1)%Z by lia.
        apply Hadj. lia. }
  replace b with (a + 1 + Z.of_nat (Z.to_nat (b - a - 1)))%Z by lia.
  apply H. lia.
Qed.

Lemma ohms_of_reading_finite (z : Z) :
  (0 <= z <= 1023)%Z -> finite_nonnegative (ohms_of_reading z) = true.
Proof.
  intros Hz.
  apply (Zrange_forallb (fun r => finite_nonnegative (ohms_of_reading r)) 0 1024);
    [vm_compute; reflexivity | lia].
Qed.

Lemma ohms_of_reading_lt (a b : Z) :
  (0 <= a)%Z -> (a < b)%Z -> (b <= 1023)%Z ->
  (ohms_of_reading a <? ohms_of_reading b)%f32 = true.
Proof.
  intros Ha Hab Hb.
  apply (increasing_chain ohms_of_reading 0 1023); try assumption.
  intros z Hz.
  apply (Zrange_forallb
           (fun r => (ohms_of_reading r <? ohms_of_reading (r + 1)%Z)%f32) 0 1023);
    [vm_compute; reflexivity | lia].
Qed.

(** X12: over the readings 0 to 1023 the resistance [readResistorOhms]
    computes is a canonical number, zero or positive and finite, and it
    grows strictly with the reading. *)
Theorem ohms_increase_with_reading (a b : Z) :
  (0 <= a)%Z -> (a < b)%Z -> (b <= 1023)%Z ->
  finite_nonnegative (ohms_of_reading a) = true /\
  finite_nonnegative (ohms_of_reading b) = true /\
  (ohms_of_reading a <? ohms_of_reading b)%f32 = true.
Proof.
  intros Ha Hab Hb.
  split; [apply ohms_of_reading_finite; lia|].
  split; [apply ohms_of_reading_finite; lia|].
  apply ohms_of_reading_lt; assumption.
Qed.

Lemma ohms_increase_with_reading_witness :
  (ohms_of_reading 512 <? ohms_of_reading 513)%f32 = true.
Proof. apply (ohms_increase_with_reading 512 513); lia. Defined.

Section ScanMore.

Variable TempToOhms : list F32.float.

Local Abbreviation T := (pgm_read_float TempToOhms).

(** X13: either the loop of the converter breaks at an index from 3 to
    379, the first from 3 on whose entry is strictly below the input, and
    the result is what [map] interpolates there plus [TEMP_OFFSET]; or no
    entry from 3 on is below the input, the loop breaks nowhere and the
    result is the initial -9999.0. The two cases are told apart by the
    loop, not by the result: an interpolated result can be -9999 too. *)
Theorem conversion_stops_at_first_entry_below (r : F32.float) :
  (exists j : Z,
     scan_index TempToOhms (Z.to_nat (END - (START + 1))) (START + 1) r = Some j /\
     (START + 1 <= j < END)%Z /\
     (T j <? r)%f32 = true /\
     (forall k, (START + 1 <= k < j)%Z -> (T k <? r)%f32 = false) /\
     resistanceToTemperature TempToOhms r =
     (map r (T (j - 1)) (T j) (F32.of_int j - F32.of_int 1) (F32.of_int j)
      + F32.of_int TEMP_OFFSET)%f32) \/
  (scan_index TempToOhms (Z.to_nat (END - (START + 1))) (START + 1) r = None /\
   (forall k, (START + 1 <= k < END)%Z -> (T k <? r)%f32 = false) /\
   resistanceToTemperature TempToOhms r = F32.of_int (-9999)).
Proof.
  unfold resistanceToTemperature. rewrite scan_scan_index.
  destruct (scan_index TempToOhms (Z.to_nat (END - (START + 1))) (START + 1) r)
    as [j|] eqn:E.
  - left. exists j. split; [reflexivity|].
    apply scan_index_some in E. destruct E as (H1 & H2 & H3).
    split; [unfold START, END in *; lia|]. split; [exact H2|].
    split; [exact H3 | reflexivity].
  - right. split; [reflexivity|]. split; [|reflexivity].
    intros k Hk. apply (scan_index_none_inv _ _ _ _ E). unfold START, END in *. lia.
Qed.

Lemma scan_index_mono (count : nat) (i j : Z) (r r' : F32.float) :
  (r <? r')%f32 = true ->
  scan_index TempToOhms count i r = Some j ->
  exists j', scan_index TempToOhms count i r' = Some j' /\ (i <= j' <= j)%Z.
Proof.
  intros Hr. revert i. induction count as [|count IH]; intros i; cbn [scan_index];
    [discriminate|].
  destruct (T i <? r)%f32 eqn:E.
  - intros [= <-]. rewrite (F32Facts.ltb_trans _ _ _ E Hr).
    exists i. split; [reflexivity | lia].
  - intros H. destruct (T i <? r')%f32.
    + exists i. split; [reflexivity|]. apply scan_index_some in H. lia.
    + destruct (IH _ H) as (j' & H1 & H2). exists j'. split; [exact H1 | lia].
Qed.

(** X14: a higher reading never gives a later table index, that is a warmer
    bracket: if the loop stops at index [j] for the reading [a], it stops
    at an index not above [j] for every reading above [a]; so where a
    reading gets the sentinel, every lower reading gets it too. *)
Theorem higher_reading_not_warmer (a b : Z) :
  (0 <= a)%Z -> (a < b)%Z -> (b <= 1023)%Z ->
  let n := Z.to_nat (END - (START + 1)) in
  (forall j, scan_index TempToOhms n (START + 1) (ohms_of_reading a) = Some j ->
     exists j', scan_index TempToOhms n (START + 1) (ohms_of_reading b) = Some j'
                /\ (j' <= j)%Z) /\
  (scan_index TempToOhms n (START + 1) (ohms_of_reading b) = None ->
   resistanceToTemperature TempToOhms (ohms_of_reading a) = F32.of_int (-9999)).
Proof.
  intros Ha Hab Hb n.
  pose proof (ohms_of_reading_lt a b Ha Hab Hb) as Hlt.
  split.
  - intros j Hj. destruct (scan_index_mono _ _ _ _ _ Hlt Hj) as (j' & H1 & H2).
    exists j'. split; [exact H1 | lia].
  - intros Hnone. unfold resistanceToTemperature. rewrite scan_scan_index.
    fold n.
    destruct (scan_index TempToOhms n (START + 1) (ohms_of_reading a)) as [j|] eqn:E;
      [|reflexivity].
    destruct (scan_index_mono _ _ _ _ _ Hlt E) as (j' & H1 & _). congruence.
Qed.

End ScanMore.

Lemma higher_reading_not_warmer_witness :
  exists j', scan_index sample_TempToOhms (Z.to_nat (END - (START + 1))) (START + 1)
               (ohms_of_reading 600) = Some j' /\ (j' <= 300)%Z.
Proof.
  apply (proj1 (higher_reading_not_warmer sample_TempToOhms 512 600
                  ltac:(lia) ltac:(lia) ltac:(lia)) 300%Z).
  vm_compute. reflexivity.
Defined.

(** ** Setting the clock *)

Lemma digit_prefix_digits (u : Decimal.uint) (rest : string) :
  starts_without_digit rest ->
  digit_prefix (NilEmpty.string_of_uint u ++ rest)
  = (NilEmpty.string_of_uint u, rest).
Proof.
  intros H. induction u as [|u IH|u IH|u IH|u IH|u IH|u IH|u IH|u IH|u IH|u IH];
    cbn [NilEmpty.string_of_uint append digit_prefix];
    try (change (is_digit _) with true; cbv iota; rewrite IH; reflexivity).
  destruct rest as [|c r]; [reflexivity|]. cbn in H |- *. rewrite H. reflexivity.
Qed.

Lemma digit_not_space_nor_sign (c : ascii) :
  is_digit c = true ->
  is_space c = false /\ Ascii.eqb c "-" = false /\ Ascii.eqb c "+" = false.
Proof.
  destruct c as [[|] [|] [|] [|] [|] [|] [|] [|]]; cbn; intros H;
    try discriminate H; repeat split.
Qed.

Lemma decimal_digits (n : Z) :
  exists u, decimal n = NilEmpty.string_of_uint u /\ u <> Decimal.Nil /\
            N.of_uint u = Z.abs_N n.
Proof.
  unfold decimal, NilZero.string_of_uint.
  exists (N.to_uint (Z.abs_N n)).
  assert (Hn : N.to_uint (Z.abs_N n) <> Decimal.Nil).
  { destruct (Z.abs_N n) as [|p]; cbn; [discriminate|].
    apply DecimalPos.Unsigned.to_uint_nonnil. }
  split; [|split; [exact Hn | apply DecimalN.Unsigned.of_to]].
  destruct (N.to_uint (Z.abs_N n)); [contradiction|..]; reflexivity.
Qed.

Lemma string_of_uint_first (u : Decimal.uint) :
  u <> Decimal.Nil ->
  exists c r, NilEmpty.string_of_uint u = String c r /\ is_digit c = true.
Proof.
  destruct u; [contradiction|..]; intros _; cbn; eexists; eexists;
    split; reflexivity.
Qed.

(** A number that was printed by [%d] is scanned back by [%d]. *)
Lemma scan_d_decimal (n : Z) (rest : string) :
  (0 <= n)%Z -> starts_without_digit rest ->
  scan_d (decimal n ++ rest) = Some (n, rest).
Proof.
  intros Hn Hrest. destruct (decimal_digits n) as (u & -> & Hu & Hv).
  destruct (string_of_uint_first u Hu) as (c & r & E & Hc).
  destruct (digit_not_space_nor_sign c Hc) as (Hs & Hm & Hp).
  unfold scan_d.
  assert (Eskip : skip_spaces (NilEmpty.string_of_uint u ++ rest)
                  = NilEmpty.string_of_uint u ++ rest)
    by (rewrite E; cbn; rewrite Hs; reflexivity).
  rewrite Eskip.
  assert (Esign : match NilEmpty.string_of_uint u ++ rest with
                  | String c0 r0 =>
                      if Ascii.eqb c0 "-" then (true, r0)
                      else if Ascii.eqb c0 "+" then (false, r0)
                      else (false, NilEmpty.string_of_uint u ++ rest)
                  | EmptyString => (false, NilEmpty.string_of_uint u ++ rest)
                  end = (false, NilEmpty.string_of_uint u ++ rest))
    by (rewrite E at 1; cbn [append]; rewrite Hm, Hp; reflexivity).
  rewrite Esign, digit_prefix_digits by exact Hrest. cbv beta iota.
  pose proof (NilEmpty.usu u) as U. rewrite E in U |- *. cbv iota.
  rewrite U, Hv, N2Z.inj_abs_N, Z.abs_eq by exact Hn.
  reflexivity.
Qed.

Lemma c_str_digits (u : Decimal.uint) (rest : string) :
  c_str (NilEmpty.string_of_uint u ++ rest)
  = NilEmpty.string_of_uint u ++ c_str rest.
Proof.
  induction u; cbn [NilEmpty.string_of_uint append c_str];
    try (change (Ascii.eqb _ "000") with false; cbv iota; rewrite IHu);
    reflexivity.
Qed.

Lemma c_str_decimal (n : Z) (rest : string) :
  c_str (decimal n ++ rest) = decimal n ++ c_str rest.
Proof.
  destruct (decimal_digits n) as (u & -> & _). apply c_str_digits.
Qed.

(** The text [%d,%d:%d:%d] makes of four numbers that are not negative. *)
Lemma clock_text (d h m s : Z) :
  (0 <= d)%Z -> (0 <= h)%Z -> (0 <= m)%Z -> (0 <= s)%Z ->
  format in_text "%d,%d:%d:%d" [d; h; m; s] =
  decimal d ++ "," ++ decimal h ++ ":" ++ decimal m ++ ":" ++ decimal s.
Proof.
  intros Hd Hh Hm Hs.
  assert (P : forall n, (0 <= n)%Z -> format_d false 0 n = decimal n).
  { intros n Hn. rewrite format_d_plain. unfold signed_decimal.
    destruct (Z.ltb_spec n 0); [lia | reflexivity]. }
  transitivity (format_d false 0 d ++ "," ++ format_d false 0 h ++ ":"
                ++ format_d false 0 m ++ ":" ++ format_d false 0 s ++ "").
  - reflexivity.
  - rewrite append_empty, !P by assumption. reflexivity.
Qed.

(** X15: [%d,%d:%d:%d] scans back the four numbers it printed, and
    [setClock] accepts such a text of a day and a time of day: it then
    sets the clock to the time the sketch was built, not to the time in
    the text, and reports the text as the time set. *)
Theorem setClock_sets_build_time (d h m s : Z) (st : State) :
  (0 <= d <= 99)%Z -> valid_time (mkDateTime 0 d h m s) ->
  let text := format in_text "%d,%d:%d:%d" [d; h; m; s] in
  sscanf "%d,%d:%d:%d" text = [d; h; m; s] /\
  setClock text st =
    (Some tt, st,
     [ rtc_adjust_build_time;
       boot_call (Serial_print "Time set to ");
       boot_call (Serial_println text) ]).
Proof.
  intros Hd (Hh & Hm & Hs). cbn [hour minute second] in Hh, Hm, Hs. cbv zeta.
  rewrite clock_text by lia.
  assert (Escan : sscanf "%d,%d:%d:%d"
                    (decimal d ++ "," ++ decimal h ++ ":" ++ decimal m ++ ":"
                     ++ decimal s) = [d; h; m; s]).
  { cbn [sscanf]. change (Ascii.eqb "%" "%") with true.
    change (Ascii.eqb "d" "d") with true.
    change (Ascii.eqb "," "%") with false. change (Ascii.eqb ":" "%") with false.
    cbv iota.
    rewrite scan_d_decimal by (try lia; reflexivity).
    cbn [append]. change (Ascii.eqb "," ",") with true. cbv iota.
    rewrite scan_d_decimal by (try lia; reflexivity).
    cbn [append]. change (Ascii.eqb ":" ":") with true. cbv iota.
    rewrite scan_d_decimal by (try lia; reflexivity).
    cbn [append]. cbv iota.
    rewrite <- (append_empty (decimal s)).
    rewrite scan_d_decimal by (try lia; exact I). reflexivity. }
  split; [exact Escan|].
  unfold setClock.
  assert (Elen : (String.length (decimal d ++ "," ++ decimal h ++ ":" ++ decimal m
                                 ++ ":" ++ decimal s) <= 14)%nat).
  { pose proof (decimal_length d ltac:(lia)).
    pose proof (decimal_length h ltac:(lia)).
    pose proof (decimal_length m ltac:(lia)).
    pose proof (decimal_length s ltac:(lia)).
    rewrite !string_length_append. cbn [String.length]. lia. }
  rewrite (substring_whole 14) by exact Elen.
  assert (Ec : c_str (decimal d ++ "," ++ decimal h ++ ":" ++ decimal m ++ ":"
                      ++ decimal s)
               = decimal d ++ "," ++ decimal h ++ ":" ++ decimal m ++ ":" ++ decimal s).
  { rewrite c_str_decimal. cbn [append c_str].
    change (Ascii.eqb "," "000") with false. cbv iota.
    rewrite c_str_decimal. cbn [append c_str].
    change (Ascii.eqb ":" "000") with false. cbv iota.
    rewrite c_str_decimal. cbn [append c_str].
    change (Ascii.eqb ":" "000") with false. cbv iota.
    rewrite <- (append_empty (decimal s)) at 1. rewrite c_str_decimal.
    cbn [c_str]. rewrite append_empty. reflexivity. }
  rewrite Ec, Escan. reflexivity.
Qed.

Lemma setClock_sets_build_time_witness :
  sscanf "%d,%d:%d:%d" (format in_text "%d,%d:%d:%d" [15; 10; 30; 45]%Z)
  = [15; 10; 30; 45]%Z.
Proof.
  apply (proj1 (setClock_sets_build_time 15 10 30 45 idle_state
                  ltac:(lia) ltac:(unfold valid_time; cbn; lia))).
Defined.

Lemma skip_spaces_length (s : string) :
  (String.length (skip_spaces s) <= String.length s)%nat.
Proof.
  induction s as [|c s IH]; cbn [skip_spaces]; [lia|].
  destruct (is_space c); cbn [String.length]; lia.
Qed.

Lemma digit_prefix_length (s : string) :
  String.length s =
  (String.length (fst (digit_prefix s)) + String.length (snd (digit_prefix s)))%nat.
Proof.
  induction s as [|c s IH]; cbn [digit_prefix]; [reflexivity|].
  destruct (is_digit c); [|reflexivity].
  destruct (digit_prefix s) as [ds rest]. cbn [fst snd String.length] in *. lia.
Qed.

(** A conversion takes at least one character. *)
Lemma scan_d_consumes (s rest : string) (v : Z) :
  scan_d s = Some (v, rest) -> (S (String.length rest) <= String.length s)%nat.
Proof.
  unfold scan_d. pose proof (skip_spaces_length s) as Hs.
  set (s1 := skip_spaces s) in *.
  assert (H2 : forall b s2,
             match s1 with
             | String c r =>
                 if Ascii.eqb c "-" then (true, r)
                 else if Ascii.eqb c "+" then (false, r)
                 else (false, s1)
             | EmptyString => (false, s1)
             end = (b, s2) -> (String.length s2 <= String.length s1)%nat).
  { intros b s2. destruct s1 as [|c r]; [intros [= _ <-]; lia|].
    destruct (Ascii.eqb c "-"); [intros [= _ <-]; cbn; lia|].
    destruct (Ascii.eqb c "+"); intros [= _ <-]; cbn; lia. }
  destruct (match s1 with
            | String c r =>
                if Ascii.eqb c "-" then (true, r)
                else if Ascii.eqb c "+" then (false, r)
                else (false, s1)
            | EmptyString => (false, s1)
            end) as [b s2] eqn:E.
  specialize (H2 b s2 eq_refl).
  pose proof (digit_prefix_length s2) as Hd.
  destruct (digit_prefix s2) as [ds r']. cbn [fst snd] in Hd.
  destruct ds as [|c ds]; [discriminate|].
  destruct (NilEmpty.uint_of_string (String c ds)); [|discriminate].
  intros [= _ <-]. cbn [String.length] in Hd. lia.
Qed.

Lemma sscanf_clock_length (s : string) :
  List.length (sscanf "%d,%d:%d:%d" s) = 4%nat -> (7 <= String.length s)%nat.
Proof.
  cbn [sscanf]. change (Ascii.eqb "%" "%") with true.
  change (Ascii.eqb "d" "d") with true.
  change (Ascii.eqb "," "%") with false. change (Ascii.eqb ":" "%") with false.
  cbv iota.
  destruct (scan_d s) as [[v1 r1]|] eqn:E1; [|discriminate].
  apply scan_d_consumes in E1.
  destruct r1 as [|c1 r1]; [discriminate|].
  destruct (Ascii.eqb "," c1); [|discriminate].
  destruct (scan_d r1) as [[v2 r2]|] eqn:E2; [|discriminate].
  apply scan_d_consumes in E2.
  destruct r2 as [|c2 r2]; [discriminate|].
  destruct (Ascii.eqb ":" c2); [|discriminate].
  destruct (scan_d r2) as [[v3 r3]|] eqn:E3; [|discriminate].
  apply scan_d_consumes in E3.
  destruct r3 as [|c3 r3]; [discriminate|].
  destruct (Ascii.eqb ":" c3); [|discriminate].
  destruct (scan_d r3) as [[v4 r4]|] eqn:E4; [|discriminate].
  apply scan_d_consumes in E4.
  intros _. cbn [String.length] in *. lia.
Qed.

Lemma c_str_length (s : string) :
  (String.length (c_str s) <= String.length s)%nat.
Proof.
  induction s as [|c s IH]; cbn [c_str]; [lia|].
  destruct (Ascii.eqb c "000"); cbn [String.length]; lia.
Qed.

Lemma substring_prefix_length (n : nat) (s : string) :
  (String.length (substring 0 n s) <= String.length s)%nat.
Proof.
  revert s. induction n as [|n IH]; intros s.
  - destruct s; cbn; lia.
  - destruct s as [|c s]; cbn; [lia|]. specialize (IH s). lia.
Qed.

(** X16: [setClock] refuses every text of fewer than seven characters, and
    more generally every text whose first 14 characters do not scan as
    four numbers: it then reports the text and leaves the clock alone. *)
Theorem setClock_refuses_unscanned (t : string) (st : State) :
  ((String.length t < 7)%nat ->
   List.length (sscanf "%d,%d:%d:%d" (c_str (substring 0 14 t))) <> 4%nat) /\
  (List.length (sscanf "%d,%d:%d:%d" (c_str (substring 0 14 t))) <> 4%nat ->
   setClock t st =
     (Some tt, st,
      [ boot_call (Serial_print "Could not scan input: ");
        boot_call (Serial_println t) ])).
Proof.
  split.
  - intros Hlen H. apply sscanf_clock_length in H.
    pose proof (c_str_length (substring 0 14 t)).
    pose proof (substring_prefix_length 14 t). lia.
  - intros H. unfold setClock. apply Nat.eqb_neq in H. rewrite H. reflexivity.
Qed.

Lemma setClock_refuses_unscanned_witness :
  setClock "10:30" idle_state =
    (Some tt, idle_state,
     [ boot_call (Serial_print "Could not scan input: ");
       boot_call (Serial_println "10:30") ]).
Proof.
  destruct (setClock_refuses_unscanned "10:30" idle_state) as [H1 H2].
  apply H2, H1. cbn. lia.
Defined.

(** ** The handler and the disconnected sensor *)

Lemma total_delay_app (t1 t2 : list Event) :
  total_delay (t1 ++ t2) = (total_delay t1 + total_delay t2)%Z.
Proof.
  induction t1 as [|e t1 IH]; [reflexivity|].
  destruct e; cbn [app total_delay]; rewrite IH; lia.
Qed.

(** X17: while the session is inactive the handler calls [delay(100)] at
    every press, so the arguments of the [delay] calls of [n] presses add
    up to [100 * n]; during an active session the handler calls no
    [delay], and the handler of the second variant calls nothing at all.
    No press changes the session. *)
Theorem presses_block_while_inactive (n : nat) (st : State) :
  total_delay (trace_of (presses n st))
    = (if _logging st then 0 else 100 * Z.of_nat n)%Z /\
  trace_of (Part000.presses n st) = [] /\
  session (state_of (presses n st)) = session st /\
  session (state_of (Part000.presses n st)) = session st.
Proof.
  split; [|split; [|split]].
  - revert st. induction n as [|n IH]; intros st.
    + destruct (_logging st); reflexivity.
    + change (presses (S n)) with (bind logIsr (fun _ => presses n)).
      rewrite bind_trace, total_delay_app, IH, logIsr_state, Nat2Z.inj_succ.
      cbn [_logging]. destruct st as [t [|] f]; run_controller;
        cbn [total_delay]; lia.
  - revert st. induction n as [|n IH]; intros st; [reflexivity|].
    change (Part000.presses (S n))
      with (bind Part000.logIsr (fun _ => Part000.presses n)).
    rewrite bind_trace, IH. reflexivity.
  - rewrite presses_globals. reflexivity.
  - destruct n as [|n]; [reflexivity|]. rewrite variant_presses_state. reflexivity.
Qed.

Lemma not_below_zero (x : F32.float) :
  finite_nonnegative x = true -> (x <? S754_zero false)%f32 = false.
Proof. destruct x as [s|s| |[|] m e]; cbn; try discriminate; reflexivity. Qed.

(** X18: the reading 0 of a sensor shorted to ground gives a resistance of
    zero, and on every table whose entries from index 3 on are zero or
    positive the converter answers it with the sentinel -9999.0. *)
Theorem reading_zero_gets_sentinel (TempToOhms : list F32.float) (channel : Z) :
  (forall k, (START + 1 <= k < END)%Z ->
     finite_nonnegative (pgm_read_float TempToOhms k) = true) ->
  readResistorOhms (fun _ => 0%Z) channel = S754_zero false /\
  readThermistorValue TempToOhms (fun _ => 0%Z) channel = F32.of_int (-9999).
Proof.
  intros H. split; [vm_compute; reflexivity|].
  unfold readThermistorValue, resistanceToTemperature.
  change (readResistorOhms (fun _ => 0%Z) channel) with (S754_zero false).
  rewrite scan_scan_index, scan_index_none; [reflexivity|].
  intros j Hj. apply not_below_zero, H. unfold START, END in *. lia.
Qed.

Lemma reading_zero_gets_sentinel_witness :
  readThermistorValue sample_TempToOhms (fun _ => 0%Z) A0 = F32.of_int (-9999).
Proof.
  apply (reading_zero_gets_sentinel sample_TempToOhms A0).
  intros k Hk.
  apply (Zrange_forallb
           (fun z => finite_nonnegative (pgm_read_float sample_TempToOhms z)) 3 377).
  - vm_compute. reflexivity.
  - unfold START, END in Hk. lia.
Defined.


Lemma run_one_transition_per_pressed_cycle_witness :
  session (state_of (run sample_TempToOhms sample_float_to_int
                       [ (3%nat, sample_world 512 true); (0%nat, sample_world 512 true) ]
                       initial_state))
  = Active.
Proof.
  apply (proj2 (run_one_transition_per_pressed_cycle
                  sample_TempToOhms sample_float_to_int
                  [ (3%nat, sample_world 512 true); (0%nat, sample_world 512 true) ])).
  reflexivity.
Defined.
